(** * generate_sidebar.py: a shallow embedding and its verified properties

    The script walks a wiki directory and writes a GitHub Wiki sidebar.
    This development embeds [.github/scripts/generate_sidebar.py] function by
    function and proves the properties its specification states.

    Conventions of the model.
    - A Python [str] is a Rocq [string]: the sequence of the bytes of its
      UTF-8 encoding. Byte-wise lexicographic order is code-point order,
      and substring, prefix and suffix tests with ASCII or well-formed
      arguments agree on both views, so [sorted], [startswith], [endswith],
      [in], [split] and [replace] are modelled on the bytes.
      [urllib.parse.quote] works on the UTF-8 bytes in Python too. Names
      and rules that do not decode as UTF-8 are outside the model.
    - The file system is a finite tree ([node]); a directory is the list of
      its entries in the order [os.listdir] enumerates them, which the
      operating system leaves unspecified. Symbolic links are not modelled.
    - [wiki_dir] is the absolute path that [os.path.abspath] returns; the
      tree is what is found there.
    - [os.path.isdir(path)] inside [should_ignore] is passed in by the caller
      as a boolean, read off the same tree.
    - An exception is [None]; the functions that cannot raise on the inputs
      the script gives them return plain values.
    - [urllib.parse.quote] is the one of Python 3.7 and later, where [~] is
      among the characters never quoted. *)

From Stdlib Require Import String Ascii List Bool ZArith Lia Arith.
From Stdlib Require Import Sorting.Sorted Sorting.Permutation Sorting.Mergesort.
From Stdlib Require Import Orders.
Import ListNotations.

Local Open Scope string_scope.
Local Open Scope list_scope.

(** ** Python string methods *)

Module Str.

(** [s.startswith(prefix)] *)
Fixpoint startswith (s prefix : string) {struct prefix} : bool :=
  match prefix, s with
  | EmptyString, _ => true
  | String c prefix', String d s' => Ascii.eqb c d && startswith s' prefix'
  | String _ _, EmptyString => false
  end.

(** [s.endswith(suffix)]: some tail of [s] is [suffix]. *)
Fixpoint endswith (s suffix : string) : bool :=
  String.eqb s suffix ||
  match s with
  | EmptyString => false
  | String _ s' => endswith s' suffix
  end.

(** [sub in s]: [sub] starts at some position of [s]. *)
Fixpoint contains (sub s : string) : bool :=
  startswith s sub ||
  match s with
  | EmptyString => false
  | String _ s' => contains sub s'
  end.

(** [s.split(sep)] for a one-character separator: never the empty list. *)
Fixpoint split (sep : ascii) (s : string) : list string :=
  match s with
  | EmptyString => [EmptyString]
  | String c s' =>
      if Ascii.eqb c sep then EmptyString :: split sep s'
      else match split sep s' with
           | piece :: pieces => String c piece :: pieces
           | [] => [String c EmptyString]
           end
  end.

(** [s.replace(old, new)] for one-character [old] and [new]. *)
Fixpoint replace (old new : ascii) (s : string) : string :=
  match s with
  | EmptyString => EmptyString
  | String c s' => String (if Ascii.eqb c old then new else c) (replace old new s')
  end.

(** [s.rfind(c)]: index of the last occurrence, or -1. *)
Fixpoint rfind_from (i : Z) (s : string) (c : ascii) (found : Z) : Z :=
  match s with
  | EmptyString => found
  | String d s' => rfind_from (i + 1) s' c (if Ascii.eqb d c then i else found)
  end.

Definition rfind (s : string) (c : ascii) : Z := rfind_from 0 s c (-1).

(** [s[i:j]] and [s[i:]] for indices within bounds, [0 <= i]. *)
Definition slice (s : string) (i j : Z) : string :=
  String.substring (Z.to_nat i) (Z.to_nat (j - i)) s.

Definition slice_from (s : string) (i : Z) : string :=
  String.substring (Z.to_nat i) (String.length s - Z.to_nat i) s.

(** [s[:-1]] *)
Fixpoint drop_last (s : string) : string :=
  match s with
  | EmptyString => EmptyString
  | String c EmptyString => EmptyString
  | String c s' => String c (drop_last s')
  end.

Fixpoint rev_onto (s acc : string) : string :=
  match s with
  | EmptyString => acc
  | String c s' => rev_onto s' (String c acc)
  end.

Definition rev (s : string) : string := rev_onto s EmptyString.

Fixpoint drop (n : nat) (s : string) : string :=
  match n, s with
  | S n', String _ s' => drop n' s'
  | _, _ => s
  end.

Definition of_bytes (bs : list nat) : string :=
  fold_right (fun b s => String (ascii_of_nat b) s) EmptyString bs.

(** The characters [str.strip()] removes, as UTF-8 byte sequences: the
    ASCII ones (tab, line feed, vertical tab, form feed, carriage return,
    the four separators 0x1C-0x1F, space) and the other Unicode white
    space (U+0085, U+00A0, U+1680, U+2000-U+200A, U+2028, U+2029, U+202F,
    U+205F, U+3000). *)
Definition whitespace : list string :=
  map of_bytes
    ([[9]; [10]; [11]; [12]; [13]; [28]; [29]; [30]; [31]; [32];
      [194; 133]; [194; 160]; [225; 154; 128]] ++
     map (fun k => [226; 128; 128 + k]) (seq 0 11) ++
     [[226; 128; 168]; [226; 128; 169]; [226; 128; 175];
      [226; 129; 159]; [227; 128; 128]]).

(** Drop leading occurrences of the sequences [ws]; the counter bounds the
    number of rounds by the length of the string. *)
Fixpoint lstrip_with (ws : list string) (rounds : nat) (s : string) : string :=
  match rounds with
  | O => s
  | S rounds' =>
      match find (startswith s) ws with
      | Some w => lstrip_with ws rounds' (drop (String.length w) s)
      | None => s
      end
  end.

Definition lstrip (s : string) : string :=
  lstrip_with whitespace (String.length s) s.

Definition rstrip (s : string) : string :=
  rev (lstrip_with (map rev whitespace) (String.length s) (rev s)).

(** [s.strip()] *)
Definition strip (s : string) : string := rstrip (lstrip s).

(** [sep.join(pieces)] *)
Fixpoint join (sep : string) (pieces : list string) : string :=
  match pieces with
  | [] => EmptyString
  | [piece] => piece
  | piece :: rest => piece ++ sep ++ join sep rest
  end.

(** [s * n] *)
Fixpoint repeat (s : string) (n : nat) : string :=
  match n with
  | O => EmptyString
  | S n' => s ++ repeat s n'
  end.

Definition is_empty (s : string) : bool :=
  match s with EmptyString => true | String _ _ => false end.

End Str.

(** ** The library functions the script calls *)

Module OsPath.

(** [os.path.join(a, b)] of [posixpath]. *)
Definition join (a b : string) : string :=
  if Str.startswith b "/" then b
  else if Str.is_empty a || Str.endswith a "/" then a ++ b
  else a ++ "/" ++ b.

(** Does the slice hold a character other than the extension separator?
    This is the loop of [genericpath._splitext] that skips leading dots
    and returns at the first other character. *)
Fixpoint has_non_dot (s : string) : bool :=
  match s with
  | EmptyString => false
  | String c s' => negb (Ascii.eqb c ".") || has_non_dot s'
  end.

(** [os.path.splitext(p)] of [posixpath]. *)
Definition splitext (p : string) : string * string :=
  let sepIndex := Str.rfind p "/" in
  let dotIndex := Str.rfind p "." in
  if (sepIndex <? dotIndex)%Z && has_non_dot (Str.slice p (sepIndex + 1) dotIndex)
  then (Str.slice p 0 dotIndex, Str.slice_from p dotIndex)
  else (p, EmptyString).

End OsPath.

Module UrlLib.

Definition between (lo hi c : ascii) : bool :=
  (nat_of_ascii lo <=? nat_of_ascii c)%nat && (nat_of_ascii c <=? nat_of_ascii hi)%nat.

Definition is_letter (c : ascii) : bool := between "A" "Z" c || between "a" "z" c.
Definition is_digit (c : ascii) : bool := between "0" "9" c.

(** [_ALWAYS_SAFE]: letters, digits and [_.-~]. *)
Definition always_safe (c : ascii) : bool :=
  is_letter c || is_digit c ||
  Ascii.eqb c "_" || Ascii.eqb c "." || Ascii.eqb c "-" || Ascii.eqb c "~".

Definition hex_digit (n : nat) : ascii :=
  if (n <? 10)%nat then ascii_of_nat (48 + n) else ascii_of_nat (55 + n).

(** ['%{:02X}'.format(b)] *)
Definition percent (c : ascii) : string :=
  let b := nat_of_ascii c in
  String "%" (String (hex_digit (b / 16)) (String (hex_digit (b mod 16)) EmptyString)).

Definition quote_byte (c : ascii) : string :=
  if always_safe c || Ascii.eqb c "/" then String c EmptyString else percent c.

(** [urllib.parse.quote(s)] with the default [safe='/'], on the UTF-8
    bytes of [s]. *)
Fixpoint quote (s : string) : string :=
  match s with
  | EmptyString => EmptyString
  | String c s' => quote_byte c ++ quote s'
  end.

End UrlLib.

(** ** The script *)

(** A file holds the lines that iterating over it in text mode yields; a
    directory holds its entries, in [os.listdir] order. *)
Inductive node : Type :=
| File (lines : list string)
| Dir (entries : list (string * node)).

Definition listdir (entries : list (string * node)) : list string :=
  map fst entries.

Fixpoint lookup (name : string) (entries : list (string * node)) : option node :=
  match entries with
  | [] => None
  | (n, c) :: rest => if String.eqb n name then Some c else lookup name rest
  end.

(** [os.path.isdir(os.path.join(d, item))] and [os.path.isfile], for an
    item of the directory whose entries are given. *)
Definition isdir (entries : list (string * node)) (item : string) : bool :=
  match lookup item entries with Some (Dir _) => true | _ => false end.

Definition isfile (entries : list (string * node)) (item : string) : bool :=
  match lookup item entries with Some (File _) => true | _ => false end.

(** Run [k] on the entry called [name]; the recursion into a subdirectory
    goes through here. *)
Definition with_child {A : Type} (entries : list (string * node)) (name : string)
    (absent : A) (k : node -> A) : A :=
  (fix go (es : list (string * node)) : A :=
     match es with
     | [] => absent
     | (n, c) :: rest => if String.eqb n name then k c else go rest
     end) entries.

(** [sorted(names)]: Python compares [str] by code point, lexicographically. *)
Module StringOrder <: TotalLeBool.
Definition t := string.
Definition leb := String.leb.
Theorem leb_total : forall a b, leb a b = true \/ leb b a = true.
Proof. exact String.leb_total. Qed.
End StringOrder.

Module StringSort := Sort StringOrder.

Definition sorted (names : list string) : list string := StringSort.sort names.

(** *** load_gitignore_patterns *)

(** The loop body: [line.split('#')[0].strip()]. *)
Definition pattern_of_line (line : string) : string :=
  Str.strip (nth 0 (Str.split "#" line) EmptyString).

Fixpoint read_patterns (lines : list string) (patterns : list string) : list string :=
  match lines with
  | [] => patterns
  | line :: rest =>
      let line' := pattern_of_line line in
      if Str.is_empty line' then read_patterns rest patterns
      else read_patterns rest (patterns ++ [line'])
  end.

(** [gitignore] is what is found at [wiki_dir/.gitignore]. A directory
    there passes [os.path.exists] and makes [open] raise: [None]. *)
Definition load_gitignore_patterns (gitignore : option node) : option (list string) :=
  match gitignore with
  | None => Some []
  | Some (File lines) => Some (read_patterns lines [])
  | Some (Dir _) => None
  end.

(** *** should_ignore *)

Fixpoint should_ignore (path_is_dir : bool) (path_str : string)
    (gitignore_patterns : list string) : bool :=
  match gitignore_patterns with
  | [] => false
  | pattern :: rest =>
      if Str.endswith pattern "/" && path_is_dir then
        if Str.endswith path_str (Str.drop_last pattern)
           || Str.contains (path_str ++ "/") pattern
        then true else should_ignore path_is_dir path_str rest
      else if Str.contains "*" pattern then
        let parts := Str.split "*" pattern in
        if (length parts =? 2)%nat
           && Str.startswith path_str (nth 0 parts EmptyString)
           && Str.endswith path_str (nth 1 parts EmptyString)
        then true else should_ignore path_is_dir path_str rest
      else if Str.contains pattern path_str then true
      else should_ignore path_is_dir path_str rest
  end.

(** *** clean_filename and generate_wiki_link *)

Definition clean_filename (filename : string) : string :=
  let name := fst (OsPath.splitext filename) in
  Str.replace "_" " " (Str.replace "-" " " name).

Definition link_name (filename : string) : string := clean_filename filename.

Definition link_url (filename : string) : string :=
  let name := fst (OsPath.splitext filename) in
  UrlLib.quote (Str.replace " " "-" name).

Definition generate_wiki_link (filename : string) : string :=
  "[" ++ link_name filename ++ "](" ++ link_url filename ++ ")".

(** *** The look-ahead: os.walk and the two has_md_files loops *)

Definition is_dir_node (n : node) : bool :=
  match n with Dir _ => true | File _ => false end.

(** [os.walk(top)], top-down and without following links: one triple
    [(root, dirs, files)] per directory of the subtree. Nothing is yielded
    when [top] is not a directory. *)
Fixpoint os_walk (top : string) (d : node) : list (string * list string * list string) :=
  match d with
  | File _ => []
  | Dir entries =>
      (top,
       listdir (filter (fun e => is_dir_node (snd e)) entries),
       listdir (filter (fun e => negb (is_dir_node (snd e))) entries))
      :: flat_map (fun e => os_walk (OsPath.join top (fst e)) (snd e)) entries
  end.

(** The loop of [generate_sidebar]: any file name ending in [.md]. *)
Definition has_md_files_top (directory_path : string) (d : node) : bool :=
  existsb (fun '(root, _, files) => existsb (fun f => Str.endswith f ".md") files)
          (os_walk directory_path d).

(** The loop of [process_directory]: the generator skips the files that
    [should_ignore] matches; they are not directories. *)
Definition has_md_files (subdir_path : string) (d : node)
    (gitignore_patterns : list string) : bool :=
  existsb (fun '(root, _, files) =>
             existsb (fun f => Str.endswith f ".md")
                     (filter (fun f => negb (should_ignore false (OsPath.join root f)
                                                           gitignore_patterns)) files))
          (os_walk subdir_path d).

(** *** process_directory *)

(** The comprehension [files] of [process_directory]. *)
Definition md_files (entries : list (string * node)) (directory_path : string)
    (gitignore_patterns : list string) : list string :=
  filter (fun item =>
            isfile entries item
            && Str.endswith item ".md"
            && negb (Str.startswith item "_")
            && negb (Str.startswith item ".")
            && negb (should_ignore (isdir entries item) (OsPath.join directory_path item)
                                   gitignore_patterns))
         (sorted (listdir entries)).

(** The comprehension [subdirs] of [process_directory]. *)
Definition subdirs (entries : list (string * node)) (directory_path : string)
    (gitignore_patterns : list string) : list string :=
  filter (fun item =>
            isdir entries item
            && negb (Str.startswith item ".")
            && negb (should_ignore (isdir entries item) (OsPath.join directory_path item)
                                   gitignore_patterns))
         (sorted (listdir entries)).

Definition leaf_line (level : nat) (file : string) : string :=
  Str.repeat "  " level ++ "- " ++ generate_wiki_link file.

Definition subheader_line (level : nat) (subdir : string) : string :=
  Str.repeat "  " level ++ "- **" ++ clean_filename subdir ++ "**".

(** The lines [process_directory] appends to [sidebar_content]. Listing a
    path that is not a directory raises; the script never does. *)
Fixpoint process_directory (d : node) (directory_path : string) (level : nat)
    (gitignore_patterns : list string) : list string :=
  match d with
  | File _ => []
  | Dir entries =>
      map (leaf_line level) (md_files entries directory_path gitignore_patterns)
      ++ flat_map
           (fun subdir =>
              let subdir_path := OsPath.join directory_path subdir in
              with_child entries subdir []
                (fun child =>
                   if has_md_files subdir_path child gitignore_patterns
                   then subheader_line level subdir
                        :: process_directory child subdir_path (S level) gitignore_patterns
                   else []))
           (subdirs entries directory_path gitignore_patterns)
  end.

(** *** generate_sidebar *)

(** The comprehension [directories]. *)
Definition directories (entries : list (string * node)) (wiki_dir : string)
    (gitignore_patterns : list string) : list string :=
  filter (fun item =>
            isdir entries item
            && negb (Str.startswith item ".")
            && negb (should_ignore (isdir entries item) (OsPath.join wiki_dir item)
                                   gitignore_patterns))
         (sorted (listdir entries)).

(** The comprehension [root_md_files]. *)
Definition root_md_files (entries : list (string * node)) (wiki_dir : string)
    (gitignore_patterns : list string) : list string :=
  filter (fun item =>
            isfile entries item
            && Str.endswith item ".md"
            && negb (Str.startswith item "_")
            && negb (Str.startswith item ".")
            && negb (String.eqb item "Home.md")
            && negb (should_ignore (isdir entries item) (OsPath.join wiki_dir item)
                                   gitignore_patterns))
         (sorted (listdir entries)).

Definition header_line (directory : string) : string :=
  "### " ++ clean_filename directory.

(** One round of the loop over [directories]. *)
Definition section (entries : list (string * node)) (wiki_dir : string)
    (gitignore_patterns : list string) (directory : string) : list string :=
  let directory_path := OsPath.join wiki_dir directory in
  if should_ignore (isdir entries directory) directory_path gitignore_patterns then []
  else
    with_child entries directory []
      (fun child =>
         if has_md_files_top directory_path child
         then header_line directory
              :: process_directory child directory_path 1 gitignore_patterns ++ [EmptyString]
         else []).

Definition unsorted_section (files : list string) : list string :=
  match files with
  | [] => []
  | _ => "### Unsorted" :: map (fun file => ("- " ++ generate_wiki_link file)%string) (sorted files)
  end.

(** The list [sidebar_content] when [generate_sidebar] reaches the write,
    for the absolute path [wiki_dir] and the tree found there. [None] is a
    raised exception. *)
Definition sidebar_content (wiki_dir : string) (root : node) : option (list string) :=
  match root with
  | File _ => None
  | Dir entries =>
      match load_gitignore_patterns (lookup ".gitignore" entries) with
      | None => None
      | Some gitignore_patterns =>
          Some (["### [[Home]]"; EmptyString]
                ++ flat_map (section entries wiki_dir gitignore_patterns)
                            (directories entries wiki_dir gitignore_patterns)
                ++ unsorted_section (root_md_files entries wiki_dir gitignore_patterns))
      end
  end.

(** What [generate_sidebar] writes: the path of the output file and its
    content. *)
Definition generate_sidebar (wiki_dir : string) (root : node) (output_file : string)
    : option (string * string) :=
  match sidebar_content wiki_dir root with
  | None => None
  | Some lines => Some (OsPath.join wiki_dir output_file, Str.join (String (ascii_of_nat 10) EmptyString) lines)
  end.

Definition demo_wiki : node :=
  Dir [("loose.md", File []); ("Home.md", File []);
       ("Guides", Dir [("intro.md", File [])])].

(** ** Notions used in the statements *)

Definition lex_le (a b : string) : Prop := String.leb a b = true.

(** What one pattern decides: the body of the loop of [should_ignore]. *)
Definition pattern_matches (path_is_dir : bool) (path_str pattern : string) : bool :=
  should_ignore path_is_dir path_str [pattern].

(** [s.count(c)]: how many times the character occurs. *)
Fixpoint count (c : ascii) (s : string) : nat :=
  match s with
  | EmptyString => 0
  | String d s' => (if Ascii.eqb d c then 1 else 0) + count c s'
  end.

(** The rule of a pattern that ends with the separator, on a directory. *)
Definition directory_rule (path_str pattern : string) : bool :=
  Str.endswith path_str (Str.drop_last pattern) || Str.contains (path_str ++ "/") pattern.

Ltac evaluate t := let v := eval vm_compute in t in change t with v.

(** The characters the specification names as passing through. *)
Definition plain (c : ascii) : bool :=
  UrlLib.is_letter c || UrlLib.is_digit c || Ascii.eqb c "-".

Fixpoint all_chars (p : ascii -> bool) (s : string) : bool :=
  match s with
  | EmptyString => true
  | String c s' => p c && all_chars p s'
  end.

Definition url_char (c : ascii) : bool :=
  UrlLib.always_safe c || Ascii.eqb c "/" || Ascii.eqb c "%".

(** Following the specification's words for one line of the rules file:
    everything from the first comment marker onward is removed. *)
Fixpoint before_comment (line : string) : string :=
  match line with
  | EmptyString => EmptyString
  | String c rest => if Ascii.eqb c "#" then EmptyString else String c (before_comment rest)
  end.

(** Following the specification's words for the whole file: the non-empty
    trimmed remainders, in file order; nothing when the file is absent. *)
Definition load_spec (rules : option (list string)) : list string :=
  match rules with
  | None => []
  | Some lines =>
      filter (fun pattern => negb (Str.is_empty pattern))
             (map (fun line => Str.strip (before_comment line)) lines)
  end.

(** *** Where a line of the sidebar comes from

    The script appends plain strings. To state which entry a line was made
    for, [process_directory_origins] and [sidebar_origins] repeat the two
    functions with the entry kept in place of the formatted string;
    [render] formats it. That rendering the origins gives back the lines
    of the script is proved below ([process_directory_render],
    [sidebar_render]). *)
Inductive origin : Type :=
| HomeLink
| Blank
| UnsortedHeader
| SectionHeader (directory : string)
| SubsectionHeader (level : nat) (subdir : string)
| LeafLink (level : nat) (file : string).

Definition render (o : origin) : string :=
  match o with
  | HomeLink => "### [[Home]]"
  | Blank => EmptyString
  | UnsortedHeader => "### Unsorted"
  | SectionHeader directory => header_line directory
  | SubsectionHeader level subdir => subheader_line level subdir
  | LeafLink level file => leaf_line level file
  end.

Fixpoint process_directory_origins (d : node) (directory_path : string) (level : nat)
    (gitignore_patterns : list string) : list origin :=
  match d with
  | File _ => []
  | Dir entries =>
      map (LeafLink level) (md_files entries directory_path gitignore_patterns)
      ++ flat_map
           (fun subdir =>
              let subdir_path := OsPath.join directory_path subdir in
              with_child entries subdir []
                (fun child =>
                   if has_md_files subdir_path child gitignore_patterns
                   then SubsectionHeader level subdir
                        :: process_directory_origins child subdir_path (S level)
                                                     gitignore_patterns
                   else []))
           (subdirs entries directory_path gitignore_patterns)
  end.

Definition section_origins (entries : list (string * node)) (wiki_dir : string)
    (gitignore_patterns : list string) (directory : string) : list origin :=
  let directory_path := OsPath.join wiki_dir directory in
  if should_ignore (isdir entries directory) directory_path gitignore_patterns then []
  else
    with_child entries directory []
      (fun child =>
         if has_md_files_top directory_path child
         then SectionHeader directory
              :: process_directory_origins child directory_path 1 gitignore_patterns
                 ++ [Blank]
         else []).

Definition unsorted_origins (files : list string) : list origin :=
  match files with
  | [] => []
  | _ => UnsortedHeader :: map (LeafLink 0) (sorted files)
  end.

Definition sidebar_origins (wiki_dir : string) (root : node) : option (list origin) :=
  match root with
  | File _ => None
  | Dir entries =>
      match load_gitignore_patterns (lookup ".gitignore" entries) with
      | None => None
      | Some gitignore_patterns =>
          Some ([HomeLink; Blank]
                ++ flat_map (section_origins entries wiki_dir gitignore_patterns)
                            (directories entries wiki_dir gitignore_patterns)
                ++ unsorted_origins (root_md_files entries wiki_dir gitignore_patterns))
      end
  end.

(** The name of the entry a line was made for, and whether it is a
    directory. *)
Definition entry_of (o : origin) : option (bool * string) :=
  match o with
  | SectionHeader directory => Some (true, directory)
  | SubsectionHeader _ subdir => Some (true, subdir)
  | LeafLink _ file => Some (false, file)
  | _ => None
  end.

Definition hidden (name : string) : bool := Str.startswith name ".".
Definition protected (name : string) : bool := Str.startswith name "_".

(** *** Two listings of one file system

    [os.listdir] may enumerate a directory in any order. [same_tree t t']
    holds when [t] and [t'] list the same files and directories, each
    directory with unique names, in possibly different orders. *)
Fixpoint lines_eqb (a b : list string) : bool :=
  match a, b with
  | [], [] => true
  | x :: a', y :: b' => String.eqb x y && lines_eqb a' b'
  | _, _ => false
  end.

Fixpoint unique (names : list string) : bool :=
  match names with
  | [] => true
  | name :: rest => negb (existsb (String.eqb name) rest) && unique rest
  end.

Fixpoint same_tree (t t' : node) : bool :=
  match t, t' with
  | File lines, File lines' => lines_eqb lines lines'
  | Dir entries, Dir entries' =>
      unique (listdir entries) && unique (listdir entries')
      && (length entries =? length entries')%nat
      && forallb (fun e => with_child entries' (fst e) false (fun c' => same_tree (snd e) c'))
                 entries
  | _, _ => false
  end.

(** C2 as the specification states it: no line is made for an entry whose
    name starts with the protected or the hidden marker. *)
Definition excluded_as_stated (o : origin) : Prop :=
  match entry_of o with
  | Some (_, name) => protected name = false /\ hidden name = false
  | None => True
  end.

(** What the filters of the script give: the protected marker excludes
    files only. *)
Definition excluded_by_filters (o : origin) : Prop :=
  match entry_of o with
  | Some (false, name) => protected name = false /\ hidden name = false
  | Some (true, name) => hidden name = false
  | None => True
  end.

Definition protected_directory_wiki : node :=
  Dir [("_private", Dir [("a.md", File [])])].

Definition marked_entries_wiki : node :=
  Dir [("_Sidebar.md", File []);
       (".git", Dir [("x.md", File [])]);
       ("Guides", Dir [("_draft.md", File []); (".hid.md", File []); ("ok.md", File []);
                       (".cache", Dir [("y.md", File [])])])].

(** The subdirectories of [subdirs] that pass the look-ahead, each with the
    entry its name denotes. *)
Definition kept_subdirs (entries : list (string * node)) (directory_path : string)
    (gitignore_patterns : list string) : list (string * node) :=
  flat_map (fun subdir =>
              match lookup subdir entries with
              | Some child =>
                  if has_md_files (OsPath.join directory_path subdir) child gitignore_patterns
                  then [(subdir, child)] else []
              | None => []
              end)
           (subdirs entries directory_path gitignore_patterns).

(** The wiki of the end-to-end example, with any content in its files. *)
Definition example_entries (home loose intro : list string) : list (string * node) :=
  [("Home.md", File home); ("loose.md", File loose);
   ("Guides", Dir [("intro.md", File intro)])].

(** A section whose only document is protected, and one whose only
    document is matched by a pattern. *)
Definition draft_only_wiki : node :=
  Dir [("Guides", Dir [("_draft.md", File [])])].

Definition ignored_only_wiki : node :=
  Dir [(".gitignore", File ["secret"]);
       ("Guides", Dir [("secret.md", File [])])].

(** Does some directory of the walk hold a file that [p] accepts, given
    the directory's path and the file's name? Both look-aheads are of this
    form ([has_md_files_top_walk], [has_md_files_walk]). *)
Definition walk_any (p : string -> string -> bool) (top : string) (d : node) : bool :=
  existsb (fun '(root, _, files) => existsb (p root) files) (os_walk top d).

(** What [same_tree] says of two directories. *)
Record same_listing (entries entries' : list (string * node)) : Prop := {
  listing_unique : NoDup (listdir entries);
  listing_unique' : NoDup (listdir entries');
  listing_names : Permutation (listdir entries) (listdir entries');
  listing_forth : forall name child,
      lookup name entries = Some child ->
      exists child', lookup name entries' = Some child' /\ same_tree child child' = true;
  listing_back : forall name child',
      lookup name entries' = Some child' ->
      exists child, lookup name entries = Some child /\ same_tree child child' = true
}.

(** One wiki listed in two orders, at both levels. *)
Definition listing_one : node :=
  Dir [(".gitignore", File ["drafts/"; "*.tmp"]);
       ("zeta.md", File []);
       ("Guides", Dir [("setup.md", File []); ("intro.md", File []);
                       ("drafts", Dir [("wip.md", File [])])]);
       ("alpha.md", File [])].

Definition listing_two : node :=
  Dir [("alpha.md", File []);
       ("Guides", Dir [("drafts", Dir [("wip.md", File [])]);
                       ("intro.md", File []); ("setup.md", File [])]);
       ("zeta.md", File []);
       (".gitignore", File ["drafts/"; "*.tmp"])].

(** ** The write and the command line *)

(** The lines that iterating over a file opened in text mode yields for
    the content [s]: with universal newlines, a line ends at a line feed, at
    a carriage return, or at the two together, and its terminator is read
    as one line feed; a last line without terminator is kept as it is.
    [cur] is the line read so far. *)
Fixpoint text_lines_from (s cur : string) : list string :=
  match s with
  | EmptyString => if Str.is_empty cur then [] else [cur]
  | String c s' =>
      if Ascii.eqb c (ascii_of_nat 10) then
        (cur ++ String (ascii_of_nat 10) EmptyString)%string :: text_lines_from s' EmptyString
      else if Ascii.eqb c (ascii_of_nat 13) then
        match s' with
        | String d s'' =>
            if Ascii.eqb d (ascii_of_nat 10) then
              (cur ++ String (ascii_of_nat 10) EmptyString)%string
              :: text_lines_from s'' EmptyString
            else
              (cur ++ String (ascii_of_nat 10) EmptyString)%string
              :: text_lines_from s' EmptyString
        | EmptyString => [(cur ++ String (ascii_of_nat 10) EmptyString)%string]
        end
      else text_lines_from s' (cur ++ String c EmptyString)
  end.

Definition text_lines (content : string) : list string :=
  text_lines_from content EmptyString.

Fixpoint replace_entry (name : string) (new : node) (entries : list (string * node))
    : list (string * node) :=
  match entries with
  | [] => []
  | (n, c) :: rest =>
      if String.eqb n name then (n, new) :: rest
      else (n, c) :: replace_entry name new rest
  end.

(** [open(os.path.join(wiki_dir, name), 'w')] and the write, for a [name]
    without separator: the file of that name in the directory is replaced,
    or created. Opening a directory for writing raises: [None]. *)
Definition write_file (entries : list (string * node)) (name : string)
    (lines : list string) : option (list (string * node)) :=
  match lookup name entries with
  | Some (Dir _) => None
  | Some (File _) => Some (replace_entry name (File lines) entries)
  | None => Some ((name, File lines) :: entries)
  end.

(** How a run of the script ends. *)
Inductive outcome : Type :=
| Exited (status : nat) (printed : string)
| Finished (printed : string) (root : node)
| Raised.

(** The defaults of the two options. *)
Definition default_wiki_dir : string := ".".
Definition default_output : string := "_Sidebar.md".

(** The main block after [parse_args], and [generate_sidebar] with its
    write. [wiki_dir] is the option as given, [abs_dir] what
    [os.path.abspath] makes of it, [found] what is at that path, [output] a
    name without separator. [Finished] carries the directory after the
    write. *)
Definition main (wiki_dir abs_dir output : string) (found : option node) : outcome :=
  match found with
  | Some (Dir entries) =>
      match generate_sidebar abs_dir (Dir entries) output with
      | None => Raised
      | Some (output_path, content) =>
          match write_file entries output (text_lines content) with
          | None => Raised
          | Some entries' =>
              Finished ("Sidebar generated at: " ++ output_path) (Dir entries')
          end
      end
  | _ => Exited 1 ("Error: " ++ wiki_dir ++ " is not a valid directory")
  end.

(** ** Notions used in the further properties *)

(** No white space sequence starts or ends the string. *)
Definition trimmed (s : string) : bool :=
  forallb (fun w => negb (Str.startswith s w) && negb (Str.endswith s w)) Str.whitespace.

(** No file name in the tree ends with [.md]. *)
Fixpoint md_free (t : node) : bool :=
  match t with
  | File _ => true
  | Dir entries =>
      forallb (fun e =>
                 match snd e with
                 | File _ => negb (Str.endswith (fst e) ".md")
                 | Dir _ => md_free (snd e)
                 end) entries
  end.

(** The indentation of a sequence of lines encodes a tree: a line may be
    at most at level [allowed]; after a leaf link the next line may be at
    most as deep as the link, after a header one level deeper than the
    header, and after the fixed lines at level 0. *)
Fixpoint nested (allowed : nat) (origins : list origin) : bool :=
  match origins with
  | [] => true
  | LeafLink level _ :: rest => (level <=? allowed)%nat && nested level rest
  | SubsectionHeader level _ :: rest => (level <=? allowed)%nat && nested (S level) rest
  | SectionHeader _ :: rest => nested 1 rest
  | (HomeLink | Blank | UnsortedHeader) :: rest => nested 0 rest
  end.

(** What the write of a file called [output] changes in a directory. *)
Record written (output : string) (entries entries' : list (string * node)) : Prop := {
  written_output_file : isdir entries output = false;
  written_isdir : forall item, isdir entries' item = isdir entries item;
  written_lookup : forall item, item <> output -> lookup item entries' = lookup item entries;
  written_listing : forall f, f output = false ->
      filter f (sorted (listdir entries')) = filter f (sorted (listdir entries))
}.

(** The directories of [directories] that pass the second pattern test
    and the look-ahead, each with the entry its name denotes. *)
Definition kept_directories (entries : list (string * node)) (wiki_dir : string)
    (gitignore_patterns : list string) : list (string * node) :=
  flat_map (fun directory =>
              if should_ignore (isdir entries directory) (OsPath.join wiki_dir directory)
                               gitignore_patterns
              then []
              else match lookup directory entries with
                   | Some child =>
                       if has_md_files_top (OsPath.join wiki_dir directory) child
                       then [(directory, child)] else []
                   | None => []
                   end)
           (directories entries wiki_dir gitignore_patterns).

(** The directory without its entries called [name]. *)
Definition remove_entry (name : string) (entries : list (string * node))
    : list (string * node) :=
  filter (fun e => negb (String.eqb (fst e) name)) entries.

(** A line of [process_directory]: a link or a subsection header, at
    level [bound] or deeper. *)
Definition level_at_least (bound : nat) (o : origin) : Prop :=
  match o with
  | LeafLink level _ | SubsectionHeader level _ => bound <= level
  | SectionHeader _ | HomeLink | Blank | UnsortedHeader => False
  end.

Definition wiki_with_rules : node :=
  Dir [(".gitignore", File ["  drafts/  # private"; "#"; " *.tmp"]);
       ("a.md", File [])].

Definition nested_wiki : node :=
  Dir [("top.md", File []);
       ("Guides", Dir [("intro.md", File []);
                       ("deep", Dir [("x.md", File []); ("attic", Dir [("notes.txt", File [])])]);
                       ("zz", Dir [("y.md", File [])])])].

(** * Properties *)

(** ** The model on small inputs *)

Example strip_demo :
  Str.strip (String (ascii_of_nat 9) "  a b " ++ String (ascii_of_nat 10) EmptyString) = "a b".
Proof. vm_compute. reflexivity. Qed.

Example split_demo :
  Str.split "*" "a*b*" = ["a"; "b"; EmptyString] /\ Str.split "#" EmptyString = [EmptyString].
Proof. split; reflexivity. Qed.

Example splitext_demo :
  map OsPath.splitext ["Home.md"; "a.tar.gz"; ".bashrc"; "..x"; "v1.0"; "plain"; "d.x/f"; "a."] =
  [("Home", ".md"); ("a.tar", ".gz"); (".bashrc", EmptyString); ("..x", EmptyString); ("v1", ".0");
   ("plain", EmptyString); ("d.x/f", EmptyString); ("a", ".")].
Proof. vm_compute. reflexivity. Qed.

Example quote_demo :
  UrlLib.quote "a b/c_d-e.f~g?h" = "a%20b/c_d-e.f~g%3Fh" /\
  UrlLib.quote (Str.of_bytes [195; 169]) = "%C3%A9".
Proof. split; vm_compute; reflexivity. Qed.

Example join_demo :
  map (fun '(a, b) => OsPath.join a b) [("/wiki", "Guides"); ("/", "x"); (EmptyString, "x"); ("/wiki", "/abs")] =
  ["/wiki/Guides"; "/x"; "x"; "/abs"].
Proof. reflexivity. Qed.

Example wiki_link_demo :
  generate_wiki_link "My-File_Name.md" = "[My File Name](My-File_Name)" /\
  generate_wiki_link "getting started.md" = "[getting started](getting-started)".
Proof. split; vm_compute; reflexivity. Qed.

Example should_ignore_demo :
  should_ignore true "/wiki/drafts" ["drafts/"] = true /\
  should_ignore false "/wiki/notes.tmp" ["*.tmp"] = true /\
  should_ignore false "/wiki/notes.tmp.md" ["*.tmp"] = false /\
  should_ignore false "/wiki/a*b*c.md" ["a*b*c"] = false.
Proof. repeat split; vm_compute; reflexivity. Qed.

Example sidebar_demo :
  sidebar_content "/wiki" demo_wiki =
  Some ["### [[Home]]"; EmptyString; "### Guides"; "  - [intro](intro)"; EmptyString;
        "### Unsorted"; "- [loose](loose)"].
Proof. vm_compute. reflexivity. Qed.

(** ** The order of [sorted] *)

Lemma ascii_compare_refl (a : ascii) : Ascii.compare a a = Eq.
Proof. unfold Ascii.compare. apply N.compare_refl. Qed.

Lemma ascii_compare_lt_trans (a b c : ascii) :
  Ascii.compare a b = Lt -> Ascii.compare b c = Lt -> Ascii.compare a c = Lt.
Proof.
  unfold Ascii.compare. rewrite !N.compare_lt_iff. apply N.lt_trans.
Qed.

Lemma string_compare_lt_trans (a : string) :
  forall b c, String.compare a b = Lt -> String.compare b c = Lt -> String.compare a c = Lt.
Proof.
  induction a as [|x a IH]; intros [|y b] [|z c]; simpl; try congruence.
  destruct (Ascii.compare x y) eqn:Hxy; try discriminate;
    destruct (Ascii.compare y z) eqn:Hyz; try discriminate; intros Hab Hbc.
  - apply Ascii.compare_eq_iff in Hxy, Hyz. subst.
    rewrite ascii_compare_refl. eauto.
  - apply Ascii.compare_eq_iff in Hxy. subst. now rewrite Hyz.
  - apply Ascii.compare_eq_iff in Hyz. subst. now rewrite Hxy.
  - now rewrite (ascii_compare_lt_trans x y z).
Qed.

Lemma lex_le_cases (a b : string) :
  lex_le a b <-> a = b \/ String.compare a b = Lt.
Proof.
  unfold lex_le, String.leb. split.
  - destruct (String.compare a b) eqn:H; try discriminate; intros _.
    + left. now apply String.compare_eq_iff.
    + now right.
  - intros [->|H].
    + destruct (String.compare b b) eqn:H; trivial.
      pose proof (String.compare_antisym b b) as Ha. rewrite H in Ha. discriminate.
    + now rewrite H.
Qed.

Lemma lex_le_trans (a b c : string) : lex_le a b -> lex_le b c -> lex_le a c.
Proof.
  rewrite !lex_le_cases. intros [->|Hab] [->|Hbc]; auto.
  right. eapply string_compare_lt_trans; eauto.
Qed.

Lemma lex_le_antisym (a b : string) : lex_le a b -> lex_le b a -> a = b.
Proof. apply String.leb_antisym. Qed.

Lemma sorted_StronglySorted (names : list string) : StronglySorted lex_le (sorted names).
Proof.
  apply Sorted_StronglySorted.
  - intros a b c. apply lex_le_trans.
  - apply StringSort.Sorted_sort.
Qed.

Lemma sorted_Permutation (names : list string) : Permutation names (sorted names).
Proof. apply StringSort.Permuted_sort. Qed.

Lemma sorted_In (names : list string) (x : string) : In x (sorted names) <-> In x names.
Proof.
  split; apply Permutation_in; [symmetry|]; apply sorted_Permutation.
Qed.

Lemma StronglySorted_unique (l : list string) :
  forall l', StronglySorted lex_le l -> StronglySorted lex_le l' -> Permutation l l' -> l = l'.
Proof.
  induction l as [|x l IH]; intros l' Hl Hl' Hp.
  - now apply Permutation_nil in Hp.
  - destruct l' as [|y l'].
    + symmetry in Hp. now apply Permutation_nil in Hp.
    + apply StronglySorted_inv in Hl as [Hl Hx], Hl' as [Hl' Hy].
      assert (x = y) as ->.
      { assert (In x (y :: l')) as [->|Hin] by (eapply Permutation_in; [exact Hp|now left]);
          trivial.
        assert (In y (x :: l)) as [->|Hin'] by
            (eapply Permutation_in; [symmetry; exact Hp|now left]); trivial.
        rewrite Forall_forall in Hx, Hy. apply lex_le_antisym; auto. }
      f_equal. apply IH; trivial. now apply Permutation_cons_inv in Hp.
Qed.

Lemma sorted_perm (l l' : list string) : Permutation l l' -> sorted l = sorted l'.
Proof.
  intros Hp. apply StronglySorted_unique; try apply sorted_StronglySorted.
  rewrite <- (sorted_Permutation l), <- (sorted_Permutation l'). exact Hp.
Qed.

Lemma StronglySorted_filter {A : Type} (R : A -> A -> Prop) (f : A -> bool) (l : list A) :
  StronglySorted R l -> StronglySorted R (filter f l).
Proof.
  induction 1 as [|x l Hl IH Hx]; simpl; [constructor|].
  destruct (f x); trivial. constructor; trivial.
  rewrite Forall_forall in *. intros y [Hy _]%filter_In. auto.
Qed.

(** ** Facts about the string methods *)

Lemma length_app (a b : string) :
  String.length (a ++ b) = String.length a + String.length b.
Proof. induction a as [|c a IH]; simpl; [reflexivity|now rewrite IH]. Qed.

Lemma app_empty_r (a : string) : (a ++ EmptyString)%string = a.
Proof. induction a as [|c a IH]; simpl; [reflexivity|now rewrite IH]. Qed.

Lemma endswith_iff (s suffix : string) :
  Str.endswith s suffix = true <-> exists pre, s = (pre ++ suffix)%string.
Proof.
  induction s as [|c s IH]; cbn [Str.endswith].
  - rewrite orb_false_r. split.
    + intros H. apply String.eqb_eq in H. subst. now exists EmptyString.
    + intros [[|d pre] H]; simpl in H; [subst; reflexivity | discriminate].
  - rewrite orb_true_iff, IH. split.
    + intros [H|[pre ->]].
      * apply String.eqb_eq in H. rewrite <- H. now exists EmptyString.
      * now exists (String c pre).
    + intros [[|d pre] H]; simpl in H.
      * left. rewrite <- H. apply String.eqb_refl.
      * right. injection H as -> ->. now exists pre.
Qed.

Lemma string_app_assoc (a b c : string) : ((a ++ b) ++ c = a ++ (b ++ c))%string.
Proof. induction a as [|x a IH]; simpl; [reflexivity|now rewrite IH]. Qed.

Lemma endswith_trans (s t u : string) :
  Str.endswith s t = true -> Str.endswith t u = true -> Str.endswith s u = true.
Proof.
  rewrite !endswith_iff. intros [a ->] [b ->].
  exists (a ++ b)%string. now rewrite string_app_assoc.
Qed.

Lemma app_same_length_inv (a : string) :
  forall b t u, (a ++ t = b ++ u)%string -> String.length t = String.length u -> t = u.
Proof.
  induction a as [|x a IH]; intros [|y b] t u H L; simpl in H.
  - exact H.
  - subst t. simpl in L. rewrite length_app in L. lia.
  - subst u. simpl in L. rewrite length_app in L. lia.
  - injection H as _ H. eauto.
Qed.

(** Two suffixes of one string that have the same length are equal. *)
Lemma endswith_unique (s t u : string) :
  Str.endswith s t = true -> Str.endswith s u = true ->
  String.length t = String.length u -> t = u.
Proof.
  rewrite !endswith_iff. intros [a ->] [b H] L. eapply app_same_length_inv; eauto.
Qed.

Lemma pattern_matches_eq (path_is_dir : bool) (path_str pattern : string) :
  pattern_matches path_is_dir path_str pattern =
  if Str.endswith pattern "/" && path_is_dir then
    Str.endswith path_str (Str.drop_last pattern) || Str.contains (path_str ++ "/") pattern
  else if Str.contains "*" pattern then
    (length (Str.split "*" pattern) =? 2)%nat
    && Str.startswith path_str (nth 0 (Str.split "*" pattern) EmptyString)
    && Str.endswith path_str (nth 1 (Str.split "*" pattern) EmptyString)
  else Str.contains pattern path_str.
Proof.
  unfold pattern_matches, should_ignore.
  repeat match goal with |- context [if ?b then _ else _] => destruct b end; reflexivity.
Qed.

(** The first pattern that matches ends the loop: the result is a
    disjunction over the patterns. *)
Lemma should_ignore_existsb (path_is_dir : bool) (path_str : string) (patterns : list string) :
  should_ignore path_is_dir path_str patterns =
  existsb (pattern_matches path_is_dir path_str) patterns.
Proof.
  induction patterns as [|pattern rest IH]; [reflexivity|].
  cbn [existsb]. rewrite <- IH. unfold pattern_matches. cbn [should_ignore].
  repeat match goal with |- context [if ?b then _ else _] => destruct b end; reflexivity.
Qed.

Lemma contains_char_count (c : ascii) (s : string) :
  Str.contains (String c EmptyString) s = negb (count c s =? 0)%nat.
Proof.
  induction s as [|d s IH]; [reflexivity|].
  cbn [Str.contains count Str.startswith]. rewrite IH.
  rewrite (Ascii.eqb_sym c d).
  destruct (Ascii.eqb d c); reflexivity.
Qed.

Lemma split_length (c : ascii) (s : string) :
  length (Str.split c s) = S (count c s).
Proof.
  induction s as [|d s IH]; [reflexivity|].
  cbn [Str.split count]. destruct (Ascii.eqb d c); cbn [length].
  - now rewrite IH.
  - destruct (Str.split c s); [discriminate|]. exact IH.
Qed.

(** ** C4, C5: should_ignore *)

(** C4 as stated fails: a pattern with two wildcard characters that occurs
    literally in the path is not matched. *)
Lemma C4_counterexample :
  ~ (forall (path_is_dir : bool) (p pattern : string),
        count "*" pattern <> 1 ->
        should_ignore path_is_dir p [pattern] =
        if Str.endswith pattern "/" && path_is_dir then directory_rule p pattern
        else Str.contains pattern p).
Proof.
  intros H. specialize (H false "/wiki/a*b*c.md" "a*b*c").
  vm_compute in H. assert (false = true) by (apply H; discriminate). discriminate.
Qed.

(** C4 (amended): a pattern without wildcard character is matched by the
    directory rule when it ends with the separator and the path is a
    directory, and by literal containment in the path otherwise; a pattern
    with more than one wildcard character is matched by the directory rule
    under the same condition, and by nothing otherwise. Neither is split
    into prefix and suffix. *)
Theorem C4_not_one_wildcard (path_is_dir : bool) (p pattern : string) :
  count "*" pattern <> 1 ->
  should_ignore path_is_dir p [pattern] =
  if Str.endswith pattern "/" && path_is_dir then directory_rule p pattern
  else if (count "*" pattern =? 0)%nat then Str.contains pattern p
  else false.
Proof.
  intros Hn. change (should_ignore path_is_dir p [pattern])
    with (pattern_matches path_is_dir p pattern).
  rewrite pattern_matches_eq. fold (directory_rule p pattern).
  destruct (Str.endswith pattern "/" && path_is_dir); [reflexivity|].
  rewrite contains_char_count, split_length.
  destruct (count "*" pattern) as [|[|n]]; [reflexivity|congruence|reflexivity].
Qed.

Lemma C4_not_one_wildcard_witness :
  count "*" "a*b*c" <> 1 /\
  should_ignore false "/wiki/a*b*c.md" ["a*b*c"] = false /\
  should_ignore false "/wiki/notes/todo.md" ["notes"] = true.
Proof.
  split; [discriminate|]. split.
  - rewrite (C4_not_one_wildcard false "/wiki/a*b*c.md" "a*b*c"); [reflexivity|discriminate].
  - rewrite (C4_not_one_wildcard false "/wiki/notes/todo.md" "notes"); [reflexivity|discriminate].
Defined.

(** C5: the pattern [drafts/] matches every directory whose path ends with
    [drafts]; the pattern [*.tmp] matches a path ending in [notes.tmp] and
    not one ending in [notes.tmp.md]; a pattern ending with the separator
    also matches a directory whose path followed by the separator occurs
    in the pattern. *)
Theorem C5_pattern_examples :
  (forall p, Str.endswith p "drafts" = true -> should_ignore true p ["drafts/"] = true) /\
  (forall d p, Str.endswith p "notes.tmp" = true -> should_ignore d p ["*.tmp"] = true) /\
  (forall d p, Str.endswith p "notes.tmp.md" = true -> should_ignore d p ["*.tmp"] = false) /\
  (forall p pattern,
      Str.endswith pattern "/" = true -> Str.contains (p ++ "/") pattern = true ->
      should_ignore true p [pattern] = true).
Proof.
  repeat split; intros.
  - change (pattern_matches true p "drafts/" = true). rewrite pattern_matches_eq.
    evaluate (Str.endswith "drafts/" "/"). evaluate (Str.drop_last "drafts/").
    cbn [andb]. now rewrite H.
  - change (pattern_matches d p "*.tmp" = true). rewrite pattern_matches_eq.
    evaluate (Str.endswith "*.tmp" "/"). evaluate (Str.contains "*" "*.tmp").
    evaluate (Str.split "*" "*.tmp"). cbn [andb length Nat.eqb nth Str.startswith].
    apply (endswith_trans p "notes.tmp" ".tmp"); [assumption|reflexivity].
  - change (pattern_matches d p "*.tmp" = false). rewrite pattern_matches_eq.
    evaluate (Str.endswith "*.tmp" "/"). evaluate (Str.contains "*" "*.tmp").
    evaluate (Str.split "*" "*.tmp"). cbn [andb length Nat.eqb nth Str.startswith].
    destruct (Str.endswith p ".tmp") eqn:E; [exfalso|reflexivity].
    assert (Str.endswith p "p.md" = true) as E'
        by (apply (endswith_trans p "notes.tmp.md" "p.md"); [assumption|reflexivity]).
    pose proof (endswith_unique p ".tmp" "p.md" E E' eq_refl). discriminate.
  - change (pattern_matches true p pattern = true). rewrite pattern_matches_eq.
    rewrite H. cbn [andb]. rewrite H0. apply orb_true_r.
Qed.

Lemma C5_pattern_examples_witness :
  should_ignore true "/wiki/drafts" ["drafts/"] = true /\
  should_ignore false "/wiki/notes.tmp" ["*.tmp"] = true /\
  should_ignore false "/wiki/notes.tmp.md" ["*.tmp"] = false /\
  should_ignore true "a" ["xa/b/"] = true.
Proof.
  destruct C5_pattern_examples as (H1 & H2 & H3 & H4).
  split; [apply H1; reflexivity|].
  split; [apply H2; reflexivity|].
  split; [apply H3; reflexivity|].
  apply H4; reflexivity.
Defined.

(** ** splitext, clean_filename, generate_wiki_link *)

Lemma rfind_from_absent (c : ascii) (s : string) :
  forall i found, count c s = 0 -> Str.rfind_from i s c found = found.
Proof.
  induction s as [|d s IH]; intros i found H; [reflexivity|].
  cbn [count] in H. cbn [Str.rfind_from].
  destruct (Ascii.eqb d c); [discriminate|]. now apply IH.
Qed.

Lemma rfind_from_last (c : ascii) (a b : string) :
  forall i found, count c b = 0 ->
  Str.rfind_from i (a ++ String c b) c found = (i + Z.of_nat (String.length a))%Z.
Proof.
  induction a as [|x a IH]; intros i found H.
  - cbn [append Str.rfind_from String.length]. rewrite Ascii.eqb_refl.
    rewrite rfind_from_absent by assumption. cbn. lia.
  - cbn [append Str.rfind_from String.length]. rewrite IH by assumption. lia.
Qed.

Lemma substring_prefix (a b : string) :
  String.substring 0 (String.length a) (a ++ b) = a.
Proof.
  induction a as [|x a IH]; cbn [append String.length String.substring].
  - now destruct b.
  - now rewrite IH.
Qed.

Lemma substring_all (b : string) : String.substring 0 (String.length b) b = b.
Proof. rewrite <- (app_empty_r b) at 2. apply substring_prefix. Qed.

Lemma substring_suffix (a b : string) :
  String.substring (String.length a) (String.length b) (a ++ b) = b.
Proof.
  induction a as [|x a IH]; cbn [append String.length].
  - apply substring_all.
  - cbn [String.substring]. exact IH.
Qed.

Lemma count_app (c : ascii) (a b : string) : count c (a ++ b) = count c a + count c b.
Proof. induction a as [|x a IH]; cbn [append count]; [reflexivity|rewrite IH; lia]. Qed.

(** The extension starts at the last dot of the name, when the name has no
    separator and some character before that dot is not a dot. *)
Lemma splitext_last_dot (base ext : string) :
  count "." ext = 0 ->
  count "/" (base ++ String "." ext) = 0 ->
  OsPath.has_non_dot base = true ->
  OsPath.splitext (base ++ String "." ext) = (base, String "." ext).
Proof.
  intros Hext Hsep Hbase. unfold OsPath.splitext, Str.rfind.
  rewrite (rfind_from_absent "/") by assumption.
  rewrite rfind_from_last by assumption.
  unfold Str.slice, Str.slice_from.
  replace (Z.to_nat (-1 + 1)) with 0 by reflexivity.
  replace (Z.to_nat (0 + Z.of_nat (String.length base) - (-1 + 1))) with (String.length base) by lia.
  replace (Z.to_nat (0 + Z.of_nat (String.length base) - 0)) with (String.length base) by lia.
  replace (Z.to_nat 0) with 0 by reflexivity.
  replace (Z.to_nat (0 + Z.of_nat (String.length base))) with (String.length base) by lia.
  rewrite substring_prefix, Hbase.
  replace (-1 <? 0 + Z.of_nat (String.length base))%Z with true by (symmetry; apply Z.ltb_lt; lia).
  cbn [andb]. f_equal. rewrite length_app.
  replace (String.length base + String.length (String "." ext) - String.length base)
    with (String.length (String "." ext)) by lia.
  apply substring_suffix.
Qed.

(** A name that does not start with a dot has another character before
    any of its dots. *)
Lemma visible_has_non_dot (base rest : string) :
  Str.startswith (base ++ String "." rest) "." = false -> OsPath.has_non_dot base = true.
Proof.
  destruct base as [|c base]; cbn [append Str.startswith OsPath.has_non_dot].
  - discriminate.
  - rewrite andb_true_r, (Ascii.eqb_sym "." c). intros ->. reflexivity.
Qed.

Lemma all_chars_app (p : ascii -> bool) (a b : string) :
  all_chars p (a ++ b) = all_chars p a && all_chars p b.
Proof. induction a as [|c a IH]; cbn; [reflexivity|now rewrite IH, andb_assoc]. Qed.

Lemma quote_plain (s : string) : all_chars plain s = true -> UrlLib.quote s = s.
Proof.
  induction s as [|c s IH]; [reflexivity|].
  cbn [all_chars UrlLib.quote]. intros [Hc Hs]%andb_true_iff.
  rewrite (IH Hs). unfold UrlLib.quote_byte, UrlLib.always_safe.
  unfold plain in Hc. apply orb_true_iff in Hc as [Hc|Hc].
  - rewrite Hc. reflexivity.
  - rewrite Hc. rewrite !orb_true_r. reflexivity.
Qed.

Lemma hex_digit_safe (n : nat) : n < 16 -> UrlLib.always_safe (UrlLib.hex_digit n) = true.
Proof.
  intros H. do 16 (destruct n as [|n]; [reflexivity|]). lia.
Qed.

Lemma quote_url_chars (s : string) : all_chars url_char (UrlLib.quote s) = true.
Proof.
  induction s as [|c s IH]; [reflexivity|].
  cbn [UrlLib.quote]. rewrite all_chars_app, IH, andb_true_r.
  unfold UrlLib.quote_byte.
  destruct (UrlLib.always_safe c || Ascii.eqb c "/") eqn:E.
  - cbn [all_chars]. unfold url_char. now rewrite E.
  - unfold UrlLib.percent. cbn [all_chars]. unfold url_char at 2 3.
    rewrite !hex_digit_safe; [reflexivity| |].
    + apply Nat.mod_upper_bound. discriminate.
    + apply Nat.Div0.div_lt_upper_bound. pose proof (nat_ascii_bounded c). lia.
Qed.

(** C3 as stated fails on its example: the underscore is kept in the
    identifier, only spaces become hyphens. *)
Lemma C3_counterexample :
  ~ (link_name "My-File_Name.md" = "My File Name" /\
     link_url "My-File_Name.md" = "My-File-Name").
Proof. intros [_ H]. vm_compute in H. discriminate. Qed.

(** C3 (amended): for [My-File_Name.md] the label is [My File Name] and the
    identifier is [My-File_Name]. For every file name the link is
    [[label](identifier)], and the identifier is the percent-encoding of
    the name without its extension in which every space is replaced by a
    hyphen; the extension starts at the last dot. The encoding leaves a
    string of letters, digits and hyphens unchanged, and its result holds
    only always-safe characters, the separator and the percent sign. *)
Theorem C3_wiki_link :
  (link_name "My-File_Name.md" = "My File Name" /\
   link_url "My-File_Name.md" = "My-File_Name") /\
  (forall filename,
      generate_wiki_link filename
      = ("[" ++ link_name filename ++ "](" ++ link_url filename ++ ")")%string /\
      link_url filename
      = UrlLib.quote (Str.replace " " "-" (fst (OsPath.splitext filename)))) /\
  (forall base ext,
      count "." ext = 0 -> count "/" (base ++ String "." ext) = 0 ->
      OsPath.has_non_dot base = true ->
      link_url (base ++ String "." ext) = UrlLib.quote (Str.replace " " "-" base)) /\
  (forall s, all_chars plain s = true -> UrlLib.quote s = s) /\
  (forall s, all_chars url_char (UrlLib.quote s) = true) /\
  (forall c, UrlLib.always_safe c || Ascii.eqb c "/" = false ->
             UrlLib.quote (String c EmptyString) = UrlLib.percent c).
Proof.
  split; [split; vm_compute; reflexivity|].
  split; [intros; split; reflexivity|].
  split.
  { intros base ext H1 H2 H3. unfold link_url. now rewrite splitext_last_dot. }
  split; [exact quote_plain|].
  split; [exact quote_url_chars|].
  intros c H. cbn [UrlLib.quote]. unfold UrlLib.quote_byte. rewrite H.
  apply app_empty_r.
Qed.

Lemma C3_wiki_link_witness :
  link_url "getting started.md" = "getting-started" /\
  UrlLib.quote "Release-2024" = "Release-2024" /\
  UrlLib.quote "?" = "%3F".
Proof.
  destruct C3_wiki_link as (_ & _ & Hext & Hplain & _ & Hunsafe).
  split; [|split].
  - exact (Hext "getting started" "md" eq_refl eq_refl eq_refl).
  - apply Hplain. reflexivity.
  - apply Hunsafe. reflexivity.
Defined.

(** C10: a directory name that holds a dot loses everything from its last
    dot onward in the header, as a file name loses its extension, and its
    hyphens and underscores become spaces. The names concerned are those of
    entries that get a header: no separator in them, no leading dot. *)
Theorem C10_directory_header (base ext : string) (level : nat) :
  count "." ext = 0 ->
  count "/" (base ++ String "." ext) = 0 ->
  Str.startswith (base ++ String "." ext) "." = false ->
  clean_filename (base ++ String "." ext) = Str.replace "_" " " (Str.replace "-" " " base) /\
  header_line (base ++ String "." ext)
  = ("### " ++ Str.replace "_" " " (Str.replace "-" " " base))%string /\
  subheader_line level (base ++ String "." ext)
  = (Str.repeat "  " level ++ "- **" ++ Str.replace "_" " " (Str.replace "-" " " base) ++ "**")%string.
Proof.
  intros Hext Hsep Hvis.
  assert (clean_filename (base ++ String "." ext)
          = Str.replace "_" " " (Str.replace "-" " " base)) as E.
  { unfold clean_filename. rewrite splitext_last_dot; trivial.
    eapply visible_has_non_dot; eauto. }
  unfold header_line, subheader_line. now rewrite E.
Qed.

Lemma C10_directory_header_witness :
  clean_filename "v1.0" = "v1" /\
  header_line "v1.0" = "### v1" /\
  subheader_line 1 "v1.0" = "  - **v1**".
Proof.
  apply (C10_directory_header "v1" "0" 1); reflexivity.
Defined.

Example dotted_directories :
  sidebar_content "/wiki"
    (Dir [("v1.0", Dir [("api_ref.d", Dir [("x.md", File [])])])])
  = Some ["### [[Home]]"; EmptyString; "### v1"; "  - **api ref**"; "    - [x](x)"; EmptyString].
Proof. vm_compute. reflexivity. Qed.


(** ** C8: load_gitignore_patterns *)

Lemma split_first_piece (line : string) :
  nth 0 (Str.split "#" line) EmptyString = before_comment line.
Proof.
  induction line as [|c line IH]; [reflexivity|].
  cbn [Str.split before_comment]. destruct (Ascii.eqb c "#"); [reflexivity|].
  destruct (Str.split "#" line) as [|piece pieces]; cbn [nth] in *; now rewrite IH.
Qed.

Lemma read_patterns_spec (lines : list string) :
  forall patterns,
    read_patterns lines patterns = patterns ++ load_spec (Some lines).
Proof.
  induction lines as [|line lines IH]; intros patterns; cbn [read_patterns load_spec map filter].
  - now rewrite app_nil_r.
  - unfold pattern_of_line. rewrite split_first_piece.
    destruct (Str.is_empty (Str.strip (before_comment line))); cbn [negb].
    + apply IH.
    + rewrite IH. cbn [load_spec]. now rewrite <- app_assoc.
Qed.

(** C8: without a rules file the patterns are the empty sequence and
    nothing is raised; with one, they are the non-empty results, in file
    order, of cutting each line at its first [#] and trimming white space.
    No character escapes or quotes another. *)
Theorem C8_load_patterns :
  load_gitignore_patterns None = Some [] /\
  (forall lines,
      load_gitignore_patterns (Some (File lines)) = Some (load_spec (Some lines))) /\
  load_gitignore_patterns (Some (File ["  drafts/  # private"; EmptyString; "# only a comment";
                                       "a\#b"; "'x y'"]))
  = Some ["drafts/"; "a\"; "'x y'"].
Proof.
  split; [reflexivity|]. split.
  - intros lines. cbn [load_gitignore_patterns]. now rewrite read_patterns_spec.
  - vm_compute. reflexivity.
Qed.

(** ** Induction on the tree, and the entry a name denotes *)

Fixpoint node_induction (P : node -> Prop)
    (HFile : forall lines, P (File lines))
    (HDir : forall entries, Forall (fun e => P (snd e)) entries -> P (Dir entries))
    (t : node) : P t :=
  match t with
  | File lines => HFile lines
  | Dir entries =>
      HDir entries
        ((fix children (es : list (string * node)) : Forall (fun e => P (snd e)) es :=
            match es with
            | [] => Forall_nil _
            | (name, child) :: rest =>
                Forall_cons (name, child) (node_induction P HFile HDir child) (children rest)
            end) entries)
  end.

Lemma with_child_lookup {A : Type} (entries : list (string * node)) (name : string)
    (absent : A) (k : node -> A) :
  with_child entries name absent k =
  match lookup name entries with Some child => k child | None => absent end.
Proof.
  induction entries as [|[n c] rest IH]; cbn; [reflexivity|].
  destruct (String.eqb n name); [reflexivity|exact IH].
Qed.

Lemma lookup_In (entries : list (string * node)) (name : string) (child : node) :
  lookup name entries = Some child -> In (name, child) entries.
Proof.
  induction entries as [|[n c] rest IH]; cbn; [discriminate|].
  destruct (String.eqb_spec n name) as [->|_].
  - intros [= ->]. now left.
  - intros H. right. auto.
Qed.

Lemma lookup_None (entries : list (string * node)) (name : string) :
  lookup name entries = None <-> ~ In name (listdir entries).
Proof.
  induction entries as [|[n c] rest IH]; cbn.
  - tauto.
  - destruct (String.eqb_spec n name) as [->|Hne].
    + split; [discriminate|]. intros H. exfalso. apply H. now left.
    + rewrite IH. tauto.
Qed.

(** Specialise an induction hypothesis on all entries to the entry found
    by [lookup]. *)
Ltac child_hyp IH E :=
  let H := fresh in
  pose proof (proj1 (Forall_forall _ _) IH _ (lookup_In _ _ _ E)) as H;
  cbn [snd] in H; clear IH; rename H into IH.

(** ** The origins render to the lines of the script *)

Lemma process_directory_render (t : node) :
  forall directory_path level gitignore_patterns,
    map render (process_directory_origins t directory_path level gitignore_patterns)
    = process_directory t directory_path level gitignore_patterns.
Proof.
  induction t as [lines|entries IH] using node_induction; intros path level patterns;
    [reflexivity|].
  cbn [process_directory process_directory_origins].
  rewrite map_app, map_map. cbn [render]. f_equal.
  rewrite flat_map_concat_map, concat_map, map_map, <- flat_map_concat_map.
  apply flat_map_ext. intros subdir. rewrite !with_child_lookup.
  destruct (lookup subdir entries) as [child|] eqn:E; [|reflexivity].
  destruct (has_md_files _ child patterns); [|reflexivity].
  cbn [map render]. f_equal. child_hyp IH E. apply IH.
Qed.

Lemma sidebar_render (wiki_dir : string) (root : node) :
  option_map (map render) (sidebar_origins wiki_dir root) = sidebar_content wiki_dir root.
Proof.
  destruct root as [lines|entries]; [reflexivity|].
  cbn [sidebar_origins sidebar_content].
  destruct (load_gitignore_patterns (lookup ".gitignore" entries)) as [patterns|];
    [|reflexivity].
  cbn [option_map]. f_equal. rewrite !map_app. cbn [map render]. do 3 f_equal.
  - rewrite flat_map_concat_map, concat_map, map_map, <- flat_map_concat_map.
    apply flat_map_ext. intros directory. unfold section_origins, section.
    destruct (should_ignore _ _ patterns); [reflexivity|].
    rewrite !with_child_lookup.
    destruct (lookup directory entries) as [child|]; [|reflexivity].
    destruct (has_md_files_top _ child); [|reflexivity].
    cbn [map render]. rewrite map_app, process_directory_render. reflexivity.
  - unfold unsorted_origins, unsorted_section.
    destruct (root_md_files entries wiki_dir patterns); [reflexivity|].
    cbn [map render]. now rewrite map_map.
Qed.

(** ** C2: hidden and protected entries *)

Lemma md_files_visible (entries : list (string * node)) (path : string)
    (patterns : list string) (file : string) :
  In file (md_files entries path patterns) ->
  protected file = false /\ hidden file = false.
Proof.
  unfold md_files. rewrite filter_In. intros [_ H].
  rewrite !andb_true_iff, !negb_true_iff in H. unfold protected, hidden. tauto.
Qed.

Lemma subdirs_visible (entries : list (string * node)) (path : string)
    (patterns : list string) (subdir : string) :
  In subdir (subdirs entries path patterns) -> hidden subdir = false.
Proof.
  unfold subdirs. rewrite filter_In. intros [_ H].
  rewrite !andb_true_iff, !negb_true_iff in H. unfold hidden. tauto.
Qed.

Lemma process_directory_excluded (t : node) :
  forall path level patterns,
    Forall excluded_by_filters (process_directory_origins t path level patterns).
Proof.
  induction t as [lines|entries IH] using node_induction; intros path level patterns;
    [constructor|].
  cbn [process_directory_origins]. apply Forall_app. split.
  - apply Forall_map, Forall_forall. intros file Hin.
    exact (md_files_visible _ _ _ _ Hin).
  - apply Forall_flat_map, Forall_forall. intros subdir Hin.
    rewrite with_child_lookup.
    destruct (lookup subdir entries) as [child|] eqn:E; [|constructor].
    destruct (has_md_files _ child patterns); [|constructor].
    constructor.
    + exact (subdirs_visible _ _ _ _ Hin).
    + child_hyp IH E. apply IH.
Qed.

(** C2 as stated fails: a directory whose name starts with the protected
    marker gets its section header. *)
Lemma C2_counterexample :
  ~ (forall wiki_dir root origins,
        sidebar_origins wiki_dir root = Some origins ->
        Forall excluded_as_stated origins).
Proof.
  intros H.
  assert (sidebar_origins "/wiki" protected_directory_wiki
          = Some [HomeLink; Blank; SectionHeader "_private"; LeafLink 1 "a.md"; Blank]) as E
      by (vm_compute; reflexivity).
  specialize (H _ _ _ E).
  apply Forall_inv_tail, Forall_inv_tail, Forall_inv in H.
  destruct H as [H _]. vm_compute in H. discriminate.
Qed.

(** C2 (amended): whatever the patterns, no leaf link is made for a file
    whose name starts with [_] or [.], and no section or subsection header
    for a directory whose name starts with [.]. A directory whose name
    starts with [_] is not excluded. *)
Theorem C2_marked_entries (wiki_dir : string) (root : node) (origins : list origin) :
  sidebar_origins wiki_dir root = Some origins ->
  sidebar_content wiki_dir root = Some (map render origins) /\
  Forall excluded_by_filters origins.
Proof.
  intros H. split.
  - rewrite <- sidebar_render, H. reflexivity.
  - destruct root as [lines|entries]; [discriminate|].
    cbn [sidebar_origins] in H.
    destruct (load_gitignore_patterns (lookup ".gitignore" entries)) as [patterns|];
      [|discriminate].
    injection H as <-. repeat constructor.
    apply Forall_app. split.
    + apply Forall_flat_map, Forall_forall. intros directory Hin.
      unfold section_origins.
      destruct (should_ignore _ _ patterns); [constructor|].
      rewrite with_child_lookup.
      destruct (lookup directory entries) as [child|]; [|constructor].
      destruct (has_md_files_top _ child); [|constructor].
      constructor.
      * unfold directories in Hin. apply filter_In in Hin as [_ Hin].
        rewrite !andb_true_iff, !negb_true_iff in Hin. cbn. unfold hidden. tauto.
      * apply Forall_app. split; [apply process_directory_excluded|repeat constructor].
    + unfold unsorted_origins.
      destruct (root_md_files entries wiki_dir patterns) as [|f fs] eqn:E; [constructor|].
      constructor; [exact I|]. apply Forall_map, Forall_forall. intros file Hin.
      apply (proj1 (sorted_In _ _)) in Hin. rewrite <- E in Hin.
      unfold root_md_files in Hin.
      apply filter_In in Hin as [_ Hin].
      rewrite !andb_true_iff, !negb_true_iff in Hin. cbn. unfold protected, hidden. tauto.
Qed.

Lemma C2_marked_entries_witness :
  sidebar_content "/wiki" marked_entries_wiki
  = Some (map render [HomeLink; Blank; SectionHeader "Guides"; LeafLink 1 "ok.md"; Blank]) /\
  Forall excluded_by_filters
         [HomeLink; Blank; SectionHeader "Guides"; LeafLink 1 "ok.md"; Blank].
Proof.
  apply (C2_marked_entries "/wiki" marked_entries_wiki). vm_compute. reflexivity.
Defined.

Example protected_directory_listed :
  sidebar_content "/wiki" protected_directory_wiki
  = Some ["### [[Home]]"; EmptyString; "###  private"; "  - [a](a)"; EmptyString].
Proof. vm_compute. reflexivity. Qed.

(** ** C6: the order of emission *)

Lemma kept_subdirs_names (entries : list (string * node)) (path : string)
    (patterns : list string) :
  map fst (kept_subdirs entries path patterns)
  = filter (fun subdir =>
              match lookup subdir entries with
              | Some child => has_md_files (OsPath.join path subdir) child patterns
              | None => false
              end)
           (subdirs entries path patterns).
Proof.
  unfold kept_subdirs. induction (subdirs entries path patterns) as [|subdir rest IH];
    [reflexivity|].
  cbn [flat_map filter]. rewrite map_app, IH.
  destruct (lookup subdir entries) as [child|]; [|reflexivity].
  destruct (has_md_files _ child patterns); reflexivity.
Qed.

Lemma kept_subdirs_children (entries : list (string * node)) (path : string)
    (patterns : list string) (subdir : string) (child : node) :
  In (subdir, child) (kept_subdirs entries path patterns) ->
  lookup subdir entries = Some child /\ is_dir_node child = true.
Proof.
  unfold kept_subdirs. rewrite in_flat_map. intros (name & Hname & Hin).
  unfold subdirs in Hname. apply filter_In in Hname as [_ Hname].
  rewrite !andb_true_iff in Hname. destruct Hname as [[Hdir _] _].
  unfold isdir in Hdir.
  destruct (lookup name entries) as [c|] eqn:E; [|contradiction].
  destruct (has_md_files _ c patterns); [|contradiction].
  destruct Hin as [[= <- <-]|[]]. split; [exact E|].
  destruct c; [discriminate|reflexivity].
Qed.

(** C6: what [process_directory] appends for a directory is first one leaf
    link per document, then, for each kept subdirectory, its subsection
    header immediately followed by the rendering of that subdirectory one
    level deeper. The documents are in lexicographic order of their names,
    and so are the subdirectories. *)
Theorem C6_documents_then_subdirectories (entries : list (string * node))
    (directory_path : string) (level : nat) (gitignore_patterns : list string) :
  exists (files : list string) (dirs : list (string * node)),
    process_directory (Dir entries) directory_path level gitignore_patterns
    = map (leaf_line level) files
      ++ flat_map (fun '(subdir, child) =>
                     subheader_line level subdir
                     :: process_directory child (OsPath.join directory_path subdir)
                                          (S level) gitignore_patterns)
                  dirs
    /\ StronglySorted lex_le files
    /\ StronglySorted lex_le (map fst dirs)
    /\ Forall (fun file => isfile entries file = true) files
    /\ Forall (fun '(subdir, child) =>
                 lookup subdir entries = Some child /\ is_dir_node child = true) dirs.
Proof.
  exists (md_files entries directory_path gitignore_patterns),
         (kept_subdirs entries directory_path gitignore_patterns).
  split; [|split; [|split; [|split]]].
  - cbn [process_directory]. f_equal. unfold kept_subdirs.
    induction (subdirs entries directory_path gitignore_patterns) as [|subdir rest IH];
      [reflexivity|].
    cbn [flat_map]. rewrite flat_map_app, <- IH. f_equal.
    rewrite with_child_lookup.
    destruct (lookup subdir entries) as [child|]; [|reflexivity].
    destruct (has_md_files _ child gitignore_patterns); [|reflexivity].
    cbn [flat_map]. now rewrite app_nil_r.
  - apply StronglySorted_filter, sorted_StronglySorted.
  - rewrite kept_subdirs_names. unfold subdirs.
    apply StronglySorted_filter, StronglySorted_filter, sorted_StronglySorted.
  - apply Forall_forall. intros file Hin. unfold md_files in Hin.
    apply filter_In in Hin as [_ Hin]. rewrite !andb_true_iff in Hin. tauto.
  - apply Forall_forall. intros [subdir child] Hin.
    exact (kept_subdirs_children _ _ _ _ _ Hin).
Qed.

Example order_demo :
  process_directory
    (Dir [("zeta", Dir [("z.md", File [])]); ("b.md", File []);
          ("alpha", Dir [("x.md", File []); ("deep", Dir [("y.md", File [])])]);
          ("a.md", File []); ("empty", Dir [("notes.txt", File [])])])
    "/wiki/top" 1 []
  = ["  - [a](a)"; "  - [b](b)";
     "  - **alpha**"; "    - [x](x)"; "    - **deep**"; "      - [y](y)";
     "  - **zeta**"; "    - [z](z)"].
Proof. vm_compute. reflexivity. Qed.

(** ** C7: the end-to-end example *)

Lemma Permutation_3_inv {A : Type} (a b c : A) (l : list A) :
  Permutation l [a; b; c] ->
  l = [a; b; c] \/ l = [a; c; b] \/ l = [b; a; c] \/
  l = [b; c; a] \/ l = [c; a; b] \/ l = [c; b; a].
Proof.
  intros H. pose proof (Permutation_length H) as L.
  destruct l as [|x [|y [|z [|]]]]; try discriminate. clear L.
  assert (In x [a; b; c]) as Hx by (eapply Permutation_in; [exact H|now left]).
  destruct Hx as [<-|[<-|[<-|[]]]].
  - apply Permutation_cons_inv, Permutation_sym, Permutation_length_2_inv in H.
    destruct H as [ [= -> ->] | [= -> ->] ]; tauto.
  - assert (Permutation [b; y; z] [b; a; c]) as H'
        by (etransitivity; [exact H|apply perm_swap]).
    apply Permutation_cons_inv, Permutation_sym, Permutation_length_2_inv in H'.
    destruct H' as [ [= -> ->] | [= -> ->] ]; tauto.
  - assert (Permutation [c; y; z] [c; a; b]) as H'
        by (etransitivity; [exact H|apply (Permutation_app_comm [a; b] [c])]).
    apply Permutation_cons_inv, Permutation_sym, Permutation_length_2_inv in H'.
    destruct H' as [ [= -> ->] | [= -> ->] ]; tauto.
Qed.

(** C7: a root that holds exactly [Home.md], [loose.md] and the directory
    [Guides] with [intro.md], and no rules file, gives the home link, a
    blank line, the header of Guides, the link of intro, a blank line, the
    header Unsorted and the link of loose. This holds wherever the root is,
    whatever the files contain and in whatever order the root is listed. *)
Theorem C7_end_to_end (wiki_dir : string) (home loose intro : list string)
    (entries : list (string * node)) :
  Permutation entries (example_entries home loose intro) ->
  sidebar_content wiki_dir (Dir entries)
  = Some ["### [[Home]]"; EmptyString; "### Guides"; "  - [intro](intro)"; EmptyString;
          "### Unsorted"; "- [loose](loose)"].
Proof.
  intros H. apply Permutation_3_inv in H.
  destruct H as [-> | [-> | [-> | [-> | [-> | ->]]]]]; vm_compute; reflexivity.
Qed.

Lemma C7_end_to_end_witness :
  sidebar_content "/home/me/wiki"
    (Dir [("loose.md", File ["# Loose"]); ("Home.md", File ["Welcome"]);
          ("Guides", Dir [("intro.md", File [])])])
  = Some ["### [[Home]]"; EmptyString; "### Guides"; "  - [intro](intro)"; EmptyString;
          "### Unsorted"; "- [loose](loose)"].
Proof.
  apply (C7_end_to_end "/home/me/wiki" ["Welcome"] ["# Loose"] []). apply perm_swap.
Defined.

Example generate_sidebar_demo :
  generate_sidebar "/wiki" demo_wiki "_Sidebar.md"
  = Some ("/wiki/_Sidebar.md",
          Str.join (String (ascii_of_nat 10) EmptyString)
            ["### [[Home]]"; EmptyString; "### Guides"; "  - [intro](intro)"; EmptyString;
             "### Unsorted"; "- [loose](loose)"]).
Proof. vm_compute. reflexivity. Qed.

(** ** C1: the look-ahead and the rendering *)

(** C1: the look-ahead of [generate_sidebar] accepts a directory whose
    only document is protected, or is matched by a pattern, and the
    rendering of that directory is empty: the section header is followed
    by no line of its own. The look-ahead of [process_directory] rejects
    the second directory and accepts the first. *)
Theorem C1_header_without_body :
  (has_md_files_top "/wiki/Guides" (Dir [("_draft.md", File [])]) = true /\
   has_md_files "/wiki/Guides" (Dir [("_draft.md", File [])]) [] = true /\
   process_directory (Dir [("_draft.md", File [])]) "/wiki/Guides" 1 [] = [] /\
   sidebar_content "/wiki" draft_only_wiki
   = Some ["### [[Home]]"; EmptyString; "### Guides"; EmptyString]) /\
  (has_md_files_top "/wiki/Guides" (Dir [("secret.md", File [])]) = true /\
   has_md_files "/wiki/Guides" (Dir [("secret.md", File [])]) ["secret"] = false /\
   process_directory (Dir [("secret.md", File [])]) "/wiki/Guides" 1 ["secret"] = [] /\
   sidebar_content "/wiki" ignored_only_wiki
   = Some ["### [[Home]]"; EmptyString; "### Guides"; EmptyString]).
Proof. repeat split; vm_compute; reflexivity. Qed.

(** ** Two listings of one file system *)

Lemma lines_eqb_eq (a : list string) : forall b, lines_eqb a b = true -> a = b.
Proof.
  induction a as [|x a IH]; intros [|y b]; cbn; try discriminate; [reflexivity|].
  intros [Hxy Hab]%andb_true_iff. apply String.eqb_eq in Hxy. f_equal; auto.
Qed.

Lemma unique_NoDup (names : list string) : unique names = true -> NoDup names.
Proof.
  induction names as [|name rest IH]; cbn; [constructor|].
  intros [Hhead Hrest]%andb_true_iff. constructor; [|auto].
  intros Hin. apply negb_true_iff in Hhead.
  assert (existsb (String.eqb name) rest = true) as E
      by (apply existsb_exists; exists name; split; [exact Hin|apply String.eqb_refl]).
  congruence.
Qed.

Lemma In_lookup (entries : list (string * node)) (name : string) (child : node) :
  NoDup (listdir entries) -> In (name, child) entries -> lookup name entries = Some child.
Proof.
  induction entries as [|[n c] rest IH]; cbn; [contradiction|].
  intros Hnd [[= -> ->]|Hin].
  - now rewrite String.eqb_refl.
  - inversion Hnd as [|? ? Hnotin Hnd']; subst.
    destruct (String.eqb_spec n name) as [->|_]; [|auto].
    exfalso. apply Hnotin. change name with (fst (name, child)). now apply in_map.
Qed.

Lemma In_listdir_lookup (entries : list (string * node)) (name : string) :
  In name (listdir entries) -> exists child, lookup name entries = Some child.
Proof.
  intros Hin. destruct (lookup name entries) as [child|] eqn:E; [now exists child|].
  apply lookup_None in E. contradiction.
Qed.

Lemma lookup_In_listdir (entries : list (string * node)) (name : string) (child : node) :
  lookup name entries = Some child -> In name (listdir entries).
Proof.
  intros E. apply lookup_In in E. change name with (fst (name, child)). now apply in_map.
Qed.

Lemma same_tree_kind (t t' : node) :
  same_tree t t' = true -> is_dir_node t = is_dir_node t'.
Proof. destruct t, t'; cbn; intros; congruence. Qed.

Lemma same_tree_file (lines : list string) (t' : node) :
  same_tree (File lines) t' = true -> t' = File lines.
Proof.
  destruct t' as [lines'|]; cbn; [|discriminate].
  intros H. apply lines_eqb_eq in H. now subst.
Qed.

Lemma same_tree_dir (entries entries' : list (string * node)) :
  same_tree (Dir entries) (Dir entries') = true -> same_listing entries entries'.
Proof.
  cbn [same_tree]. rewrite !andb_true_iff. intros [[[Hu Hu'] Hlen] Hall].
  apply unique_NoDup in Hu, Hu'. apply Nat.eqb_eq in Hlen.
  rewrite forallb_forall in Hall.
  assert (forall name child,
             lookup name entries = Some child ->
             exists child', lookup name entries' = Some child'
                            /\ same_tree child child' = true) as Hforth.
  { intros name child E. apply lookup_In in E. specialize (Hall _ E).
    cbn [fst snd] in Hall. rewrite with_child_lookup in Hall.
    destruct (lookup name entries') as [child'|]; [|discriminate]. now exists child'. }
  assert (Permutation (listdir entries) (listdir entries')) as Hperm.
  { apply NoDup_Permutation_bis; trivial.
    - unfold listdir. rewrite !length_map. lia.
    - intros name Hin. apply In_listdir_lookup in Hin as [child E].
      apply Hforth in E as (child' & E' & _). eapply lookup_In_listdir; eauto. }
  split; trivial.
  intros name child' E'.
  assert (In name (listdir entries)) as Hin
      by (eapply Permutation_in; [symmetry; exact Hperm|eapply lookup_In_listdir; eauto]).
  apply In_listdir_lookup in Hin as [child E]. exists child. split; [exact E|].
  apply Hforth in E as (child'' & E'' & Hsame). congruence.
Qed.

Lemma same_listing_isdir (entries entries' : list (string * node)) (item : string) :
  same_listing entries entries' -> isdir entries item = isdir entries' item.
Proof.
  intros H. unfold isdir. destruct (lookup item entries) as [child|] eqn:E.
  - apply (listing_forth _ _ H) in E as (child' & -> & Hs).
    apply same_tree_kind in Hs. destruct child, child'; cbn in Hs; congruence.
  - destruct (lookup item entries') as [child'|] eqn:E'; [|reflexivity].
    apply (listing_back _ _ H) in E' as (child & E' & _). congruence.
Qed.

Lemma same_listing_isfile (entries entries' : list (string * node)) (item : string) :
  same_listing entries entries' -> isfile entries item = isfile entries' item.
Proof.
  intros H. unfold isfile. destruct (lookup item entries) as [child|] eqn:E.
  - apply (listing_forth _ _ H) in E as (child' & -> & Hs).
    apply same_tree_kind in Hs. destruct child, child'; cbn in Hs; congruence.
  - destruct (lookup item entries') as [child'|] eqn:E'; [|reflexivity].
    apply (listing_back _ _ H) in E' as (child & E' & _). congruence.
Qed.

Lemma same_listing_sorted (entries entries' : list (string * node)) :
  same_listing entries entries' -> sorted (listdir entries) = sorted (listdir entries').
Proof. intros H. apply sorted_perm, (listing_names _ _ H). Qed.

(** ** The look-ahead does not depend on the listing order *)

Lemma existsb_flat_map {A B : Type} (f : B -> bool) (g : A -> list B) (l : list A) :
  existsb f (flat_map g l) = existsb (fun x => existsb f (g x)) l.
Proof.
  induction l as [|x l IH]; [reflexivity|].
  cbn [flat_map existsb]. now rewrite existsb_app, IH.
Qed.

Lemma existsb_filter {A : Type} (f g : A -> bool) (l : list A) :
  existsb f (filter g l) = existsb (fun x => g x && f x) l.
Proof.
  induction l as [|x l IH]; [reflexivity|].
  cbn [filter existsb]. destruct (g x); cbn [existsb andb]; now rewrite IH.
Qed.

Lemma existsb_pointwise {A : Type} (f g : A -> bool) (l : list A) :
  (forall x, f x = g x) -> existsb f l = existsb g l.
Proof.
  intros H. induction l as [|x l IH]; [reflexivity|].
  cbn [existsb]. now rewrite H, IH.
Qed.

Lemma has_md_files_top_walk (path : string) (d : node) :
  has_md_files_top path d = walk_any (fun _ f => Str.endswith f ".md") path d.
Proof. reflexivity. Qed.

Lemma has_md_files_walk (path : string) (d : node) (patterns : list string) :
  has_md_files path d patterns
  = walk_any (fun root f => negb (should_ignore false (OsPath.join root f) patterns)
                            && Str.endswith f ".md") path d.
Proof.
  unfold has_md_files, walk_any. apply existsb_pointwise.
  intros [[root dirs] files]. apply existsb_filter.
Qed.

(** A directory passes when one of its own files is accepted or one of its
    entries passes. *)
Lemma walk_any_dir (p : string -> string -> bool) (top : string)
    (entries : list (string * node)) :
  walk_any p top (Dir entries) = true <->
  (exists file child, In (file, child) entries /\ is_dir_node child = false
                      /\ p top file = true)
  \/ (exists name child, In (name, child) entries
                         /\ walk_any p (OsPath.join top name) child = true).
Proof.
  unfold walk_any at 1. cbn [os_walk existsb]. rewrite orb_true_iff.
  rewrite existsb_flat_map, !existsb_exists. unfold listdir. split.
  - intros [(file & Hin & Hp)|([name child] & Hin & Hw)].
    + left. apply in_map_iff in Hin as ([file' child] & <- & Hin).
      apply filter_In in Hin as [Hin Hk]. apply negb_true_iff in Hk.
      now exists file', child.
    + right. now exists name, child.
  - intros [(file & child & Hin & Hk & Hp)|(name & child & Hin & Hw)].
    + left. exists file. split; [|exact Hp].
      apply in_map_iff. exists (file, child). split; [reflexivity|].
      apply filter_In. split; [exact Hin|]. cbn. now rewrite Hk.
    + right. now exists (name, child).
Qed.

Lemma walk_any_file (p : string -> string -> bool) (top : string) (lines : list string) :
  walk_any p top (File lines) = false.
Proof. reflexivity. Qed.

Lemma walk_any_same (p : string -> string -> bool) (t : node) :
  forall t' top, same_tree t t' = true -> walk_any p top t = walk_any p top t'.
Proof.
  induction t as [lines|entries IH] using node_induction; intros t' top Hs.
  - apply same_tree_file in Hs. now subst.
  - destruct t' as [|entries']; [discriminate|].
    pose proof (same_tree_dir _ _ Hs) as L.
    rewrite Forall_forall in IH.
    apply eq_true_iff_eq. rewrite !walk_any_dir. split.
    + intros [(file & child & Hin & Hk & Hp)|(name & child & Hin & Hw)].
      * apply (In_lookup _ _ _ (listing_unique _ _ L)) in Hin.
        apply (listing_forth _ _ L) in Hin as (child' & E' & Hc).
        left. exists file, child'. apply lookup_In in E'.
        apply same_tree_kind in Hc. split; [exact E'|]. split; congruence.
      * pose proof (IH _ Hin) as IHc. cbn [snd] in IHc.
        apply (In_lookup _ _ _ (listing_unique _ _ L)) in Hin.
        apply (listing_forth _ _ L) in Hin as (child' & E' & Hc).
        right. exists name, child'. apply lookup_In in E'. split; [exact E'|].
        now rewrite <- (IHc _ _ Hc).
    + intros [(file & child' & Hin & Hk & Hp)|(name & child' & Hin & Hw)].
      * apply (In_lookup _ _ _ (listing_unique' _ _ L)) in Hin.
        apply (listing_back _ _ L) in Hin as (child & E & Hc).
        left. exists file, child. apply lookup_In in E.
        apply same_tree_kind in Hc. split; [exact E|]. split; congruence.
      * apply (In_lookup _ _ _ (listing_unique' _ _ L)) in Hin.
        apply (listing_back _ _ L) in Hin as (child & E & Hc).
        right. exists name, child. apply lookup_In in E. split; [exact E|].
        pose proof (IH _ E) as IHc. cbn [snd] in IHc.
        now rewrite (IHc _ _ Hc).
Qed.

(** ** The look-ahead accepts every directory that renders to some line *)

Lemma flat_map_not_nil {A B : Type} (f : A -> list B) (l : list A) :
  flat_map f l <> [] -> exists x, In x l /\ f x <> [].
Proof.
  induction l as [|x l IH]; cbn [flat_map]; [congruence|].
  destruct (f x) as [|y ys] eqn:E.
  - intros H. destruct (IH H) as (x' & Hin & Hx'). exists x'. split; [now right|exact Hx'].
  - intros _. exists x. split; [now left|congruence].
Qed.

Lemma walk_any_mono (p q : string -> string -> bool) (top : string) (t : node) :
  (forall root f, p root f = true -> q root f = true) ->
  walk_any p top t = true -> walk_any q top t = true.
Proof.
  intros Hpq. unfold walk_any. rewrite !existsb_exists.
  intros ([[root dirs] files] & Hin & Hp). exists (root, dirs, files). split; [exact Hin|].
  rewrite existsb_exists in *. destruct Hp as (f & Hf & Hp). exists f. auto.
Qed.

Lemma has_md_files_top_of_has_md_files (path : string) (t : node) (patterns : list string) :
  has_md_files path t patterns = true -> has_md_files_top path t = true.
Proof.
  rewrite has_md_files_walk, has_md_files_top_walk. apply walk_any_mono.
  intros root f H. now apply andb_true_iff in H.
Qed.

(** X6: pruning loses no content. A directory for which [process_directory]
    appends at least one line passes the look-ahead of [process_directory]
    and that of [generate_sidebar]. *)
Lemma rendering_implies_look_ahead (t : node) (path : string) (level : nat)
    (patterns : list string) :
  process_directory t path level patterns <> [] ->
  has_md_files path t patterns = true /\ has_md_files_top path t = true.
Proof.
  intros H.
  assert (has_md_files path t patterns = true) as Hmd;
    [|split; [exact Hmd|exact (has_md_files_top_of_has_md_files _ _ _ Hmd)]].
  destruct t as [lines|entries]; [now contradiction H|].
  rewrite has_md_files_walk, walk_any_dir. cbn [process_directory] in H.
  destruct (md_files entries path patterns) as [|file files] eqn:Ef.
  - right. cbn [map app] in H. apply flat_map_not_nil in H as (subdir & _ & H).
    rewrite with_child_lookup in H.
    destruct (lookup subdir entries) as [child|] eqn:E; [|now contradiction H].
    destruct (has_md_files (OsPath.join path subdir) child patterns) eqn:Hc;
      [|now contradiction H].
    exists subdir, child. split; [now apply lookup_In|]. now rewrite <- has_md_files_walk.
  - left. assert (In file (md_files entries path patterns)) as Hin
        by (rewrite Ef; now left).
    unfold md_files in Hin. apply filter_In in Hin as [_ Hin].
    rewrite !andb_true_iff, !negb_true_iff in Hin.
    destruct Hin as [[[[Hfile Hmd] _] _] Hign].
    unfold isfile in Hfile. unfold isdir in Hign.
    destruct (lookup file entries) as [[lines|sub]|] eqn:E; try discriminate.
    exists file, (File lines). split; [now apply lookup_In|]. split; [reflexivity|].
    now rewrite Hign, Hmd.
Qed.

(** ** C9: the output does not depend on the listing order *)

Lemma md_files_same (entries entries' : list (string * node)) (path : string)
    (patterns : list string) :
  same_listing entries entries' ->
  md_files entries path patterns = md_files entries' path patterns.
Proof.
  intros L. unfold md_files. rewrite (same_listing_sorted _ _ L).
  apply filter_ext. intros item.
  now rewrite (same_listing_isfile _ _ item L), (same_listing_isdir _ _ item L).
Qed.

Lemma subdirs_same (entries entries' : list (string * node)) (path : string)
    (patterns : list string) :
  same_listing entries entries' ->
  subdirs entries path patterns = subdirs entries' path patterns.
Proof.
  intros L. unfold subdirs. rewrite (same_listing_sorted _ _ L).
  apply filter_ext. intros item. now rewrite (same_listing_isdir _ _ item L).
Qed.

Lemma process_directory_same (t : node) :
  forall t' path level patterns,
    same_tree t t' = true ->
    process_directory t path level patterns = process_directory t' path level patterns.
Proof.
  induction t as [lines|entries IH] using node_induction; intros t' path level patterns Hs.
  - apply same_tree_file in Hs. now subst.
  - destruct t' as [|entries']; [discriminate|].
    pose proof (same_tree_dir _ _ Hs) as L. cbn [process_directory].
    rewrite (md_files_same _ _ path patterns L), (subdirs_same _ _ path patterns L).
    f_equal. apply flat_map_ext. intros subdir. rewrite !with_child_lookup.
    destruct (lookup subdir entries) as [child|] eqn:E.
    + destruct (listing_forth _ _ L _ _ E) as (child' & -> & Hc).
      rewrite !has_md_files_walk, (walk_any_same _ _ _ _ Hc).
      child_hyp IH E. now rewrite (IH _ _ _ _ Hc).
    + destruct (lookup subdir entries') as [child'|] eqn:E'; [|reflexivity].
      apply (listing_back _ _ L) in E' as (child & E' & _). congruence.
Qed.

Lemma sidebar_content_same (wiki_dir : string) (root root' : node) :
  same_tree root root' = true ->
  sidebar_content wiki_dir root = sidebar_content wiki_dir root'.
Proof.
  intros Hs. destruct root as [lines|entries].
  - apply same_tree_file in Hs. now subst.
  - destruct root' as [|entries']; [discriminate|].
    pose proof (same_tree_dir _ _ Hs) as L. cbn [sidebar_content].
    assert (load_gitignore_patterns (lookup ".gitignore" entries)
            = load_gitignore_patterns (lookup ".gitignore" entries')) as ->.
    { destruct (lookup ".gitignore" entries) as [rules|] eqn:E.
      - destruct (listing_forth _ _ L _ _ E) as (rules' & -> & Hr).
        destruct rules as [lines|sub].
        + apply same_tree_file in Hr. now subst.
        + destruct rules'; [discriminate|reflexivity].
      - destruct (lookup ".gitignore" entries') as [rules'|] eqn:E'; [|reflexivity].
        apply (listing_back _ _ L) in E' as (rules & E' & _). congruence. }
    destruct (load_gitignore_patterns (lookup ".gitignore" entries')) as [patterns|];
      [|reflexivity].
    f_equal. f_equal. f_equal.
    + assert (directories entries wiki_dir patterns
              = directories entries' wiki_dir patterns) as ->.
      { unfold directories. rewrite (same_listing_sorted _ _ L).
        apply filter_ext. intros item. now rewrite (same_listing_isdir _ _ item L). }
      apply flat_map_ext. intros directory. unfold section.
      rewrite (same_listing_isdir _ _ directory L).
      destruct (should_ignore _ _ patterns); [reflexivity|].
      rewrite !with_child_lookup.
      destruct (lookup directory entries) as [child|] eqn:E.
      * destruct (listing_forth _ _ L _ _ E) as (child' & -> & Hc).
        rewrite !has_md_files_top_walk, (walk_any_same _ _ _ _ Hc).
        now rewrite (process_directory_same _ _ _ _ _ Hc).
      * destruct (lookup directory entries') as [child'|] eqn:E'; [|reflexivity].
        apply (listing_back _ _ L) in E' as (child & E' & _). congruence.
    + assert (root_md_files entries wiki_dir patterns
              = root_md_files entries' wiki_dir patterns) as ->; [|reflexivity].
      unfold root_md_files. rewrite (same_listing_sorted _ _ L).
      apply filter_ext. intros item.
      now rewrite (same_listing_isfile _ _ item L), (same_listing_isdir _ _ item L).
Qed.

(** C9: two runs on the same file system, with the same root path and
    output name, write the same bytes to the same path, in whatever order
    each run sees the directories listed. *)
Theorem C9_deterministic (wiki_dir output_file : string) (root root' : node) :
  same_tree root root' = true ->
  generate_sidebar wiki_dir root output_file = generate_sidebar wiki_dir root' output_file.
Proof.
  intros Hs. unfold generate_sidebar. now rewrite (sidebar_content_same _ _ _ Hs).
Qed.

Lemma C9_deterministic_witness :
  generate_sidebar "/wiki" listing_one "_Sidebar.md"
  = generate_sidebar "/wiki" listing_two "_Sidebar.md".
Proof.
  apply (C9_deterministic "/wiki" "_Sidebar.md" listing_one listing_two).
  vm_compute. reflexivity.
Defined.

Example listing_one_sidebar :
  sidebar_content "/wiki" listing_one
  = Some ["### [[Home]]"; EmptyString; "### Guides"; "  - [intro](intro)";
          "  - [setup](setup)"; EmptyString;
          "### Unsorted"; "- [alpha](alpha)"; "- [zeta](zeta)"].
Proof. vm_compute. reflexivity. Qed.

(** * Further properties of the script *)

(** ** should_ignore: patterns only add up *)

(** X1: a path that is ignored stays ignored when patterns are added or
    the list is reordered; no pattern takes back what another one matched. *)
Theorem should_ignore_monotone (path_is_dir : bool) (path_str : string)
    (patterns patterns' : list string) :
  incl patterns patterns' ->
  should_ignore path_is_dir path_str patterns = true ->
  should_ignore path_is_dir path_str patterns' = true.
Proof.
  rewrite !should_ignore_existsb, !existsb_exists.
  intros Hincl (pattern & Hin & Hm). exists pattern. split; [apply Hincl, Hin|exact Hm].
Qed.

Lemma should_ignore_monotone_witness :
  should_ignore false "/wiki/notes.tmp" ["drafts/"; "Home"; "*.tmp"] = true.
Proof.
  apply (should_ignore_monotone false "/wiki/notes.tmp" ["*.tmp"]).
  - intros x [<-|[]]. right. right. now left.
  - reflexivity.
Defined.

(** ** Facts about reversal and trimming *)

Lemma rev_onto_app (s acc : string) : Str.rev_onto s acc = (Str.rev s ++ acc)%string.
Proof.
  unfold Str.rev. revert acc. induction s as [|c s IH]; intros acc; [reflexivity|].
  cbn [Str.rev_onto]. rewrite IH, (IH (String c EmptyString)).
  now rewrite string_app_assoc.
Qed.

Lemma rev_cons (c : ascii) (s : string) :
  Str.rev (String c s) = (Str.rev s ++ String c EmptyString)%string.
Proof. unfold Str.rev at 1. cbn [Str.rev_onto]. apply rev_onto_app. Qed.

Lemma rev_app (a b : string) : Str.rev (a ++ b) = (Str.rev b ++ Str.rev a)%string.
Proof.
  induction a as [|c a IH]; cbn [append].
  - now rewrite app_empty_r.
  - now rewrite !rev_cons, IH, string_app_assoc.
Qed.

Lemma rev_involutive (s : string) : Str.rev (Str.rev s) = s.
Proof.
  induction s as [|c s IH]; [reflexivity|].
  now rewrite rev_cons, rev_app, IH.
Qed.

Lemma rev_length (s : string) : String.length (Str.rev s) = String.length s.
Proof.
  induction s as [|c s IH]; [reflexivity|].
  rewrite rev_cons, length_app, IH. cbn. lia.
Qed.

Lemma count_rev (c : ascii) (s : string) : count c (Str.rev s) = count c s.
Proof.
  induction s as [|d s IH]; [reflexivity|].
  rewrite rev_cons, count_app, IH. cbn [count]. lia.
Qed.

Lemma startswith_iff (s prefix : string) :
  Str.startswith s prefix = true <-> exists rest, s = (prefix ++ rest)%string.
Proof.
  revert s. induction prefix as [|c prefix IH]; intros s; cbn [Str.startswith].
  - split; [intros _; now exists s|reflexivity].
  - destruct s as [|d s].
    + split; [discriminate|]. intros [rest H]. discriminate.
    + rewrite andb_true_iff, IH. split.
      * intros [Hc [rest ->]]. apply Ascii.eqb_eq in Hc. subst. now exists rest.
      * intros [rest H]. cbn in H. injection H as -> ->.
        split; [apply Ascii.eqb_refl|now exists rest].
Qed.

Lemma endswith_rev (s suffix : string) :
  Str.endswith s suffix = Str.startswith (Str.rev s) (Str.rev suffix).
Proof.
  apply eq_true_iff_eq. rewrite endswith_iff, startswith_iff. split.
  - intros [pre ->]. exists (Str.rev pre). apply rev_app.
  - intros [rest H]. exists (Str.rev rest).
    rewrite <- (rev_involutive s), H, rev_app. now rewrite rev_involutive.
Qed.

Lemma drop_split (n : nat) (s : string) :
  exists pre, s = (pre ++ Str.drop n s)%string
              /\ String.length pre = Nat.min n (String.length s).
Proof.
  revert s. induction n as [|n IH]; intros s.
  - exists EmptyString. split; [now destruct s|reflexivity].
  - destruct s as [|c s]; [now exists EmptyString|].
    destruct (IH s) as (pre & H & L). exists (String c pre). cbn [Str.drop append].
    split; [now rewrite <- H|cbn; now rewrite L].
Qed.

(** The result of [lstrip_with] is what is left of the string after some
    of its first characters. *)
Lemma lstrip_with_drop (ws : list string) (rounds : nat) :
  forall s, exists pre, s = (pre ++ Str.lstrip_with ws rounds s)%string.
Proof.
  induction rounds as [|rounds IH]; intros s; [now exists EmptyString|].
  cbn [Str.lstrip_with]. destruct (find (Str.startswith s) ws) as [w|];
    [|now exists EmptyString].
  destruct (drop_split (String.length w) s) as (pre & H & _).
  destruct (IH (Str.drop (String.length w) s)) as (pre' & H').
  exists (pre ++ pre')%string. rewrite string_app_assoc, <- H'. exact H.
Qed.

Lemma find_none_intro {A : Type} (f : A -> bool) (l : list A) :
  (forall x, In x l -> f x = false) -> find f l = None.
Proof.
  induction l as [|x l IH]; intros H; [reflexivity|].
  cbn [find]. rewrite (H x) by now left. apply IH. intros y Hy. apply H. now right.
Qed.

(** With as many rounds as the string has characters, nothing is left to
    drop. *)
Lemma lstrip_with_done (ws : list string) (rounds : nat) :
  Forall (fun w => w <> EmptyString) ws ->
  forall s, String.length s <= rounds ->
            find (Str.startswith (Str.lstrip_with ws rounds s)) ws = None.
Proof.
  intros Hws. induction rounds as [|rounds IH]; intros s L.
  - destruct s; [|cbn in L; lia]. cbn [Str.lstrip_with].
    apply find_none_intro. intros w Hin. rewrite Forall_forall in Hws.
    specialize (Hws _ Hin). now destruct w.
  - cbn [Str.lstrip_with]. destruct (find (Str.startswith s) ws) as [w|] eqn:E;
      [|exact E].
    apply IH. apply find_some in E as [Hin Hw]. rewrite Forall_forall in Hws.
    specialize (Hws _ Hin). apply startswith_iff in Hw as [rest ->].
    destruct (drop_split (String.length w) (w ++ rest)) as (pre & H & Lp).
    assert (String.length (w ++ rest)
            = String.length pre + String.length (Str.drop (String.length w) (w ++ rest)))
      as Hl by (rewrite H at 1; apply length_app).
    rewrite length_app in *. destruct w; [congruence|]. cbn [String.length] in *. lia.
Qed.

Lemma whitespace_nonempty : Forall (fun w => w <> EmptyString) Str.whitespace.
Proof.
  apply Forall_forall. intros w Hin. vm_compute in Hin.
  repeat (destruct Hin as [<-|Hin]; [discriminate|]). contradiction.
Qed.

Lemma rev_whitespace_nonempty :
  Forall (fun w => w <> EmptyString) (map Str.rev Str.whitespace).
Proof.
  apply Forall_forall. intros w Hin. vm_compute in Hin.
  repeat (destruct Hin as [<-|Hin]; [discriminate|]). contradiction.
Qed.

Lemma lstrip_no_leading (s w : string) :
  In w Str.whitespace -> Str.startswith (Str.lstrip s) w = false.
Proof.
  intros Hin. unfold Str.lstrip.
  exact (find_none _ _ (lstrip_with_done _ _ whitespace_nonempty s (le_n _)) w Hin).
Qed.

Lemma rstrip_no_trailing (s w : string) :
  In w Str.whitespace -> Str.endswith (Str.rstrip s) w = false.
Proof.
  intros Hin. unfold Str.rstrip. rewrite endswith_rev, rev_involutive.
  assert (String.length (Str.rev s) <= String.length s) as L by (rewrite rev_length; lia).
  exact (find_none _ _ (lstrip_with_done _ _ rev_whitespace_nonempty _ L) _
                   (in_map Str.rev _ _ Hin)).
Qed.

Lemma lstrip_suffix (s : string) : exists pre, s = (pre ++ Str.lstrip s)%string.
Proof. apply lstrip_with_drop. Qed.

Lemma rstrip_prefix (s : string) : exists post, s = (Str.rstrip s ++ post)%string.
Proof.
  unfold Str.rstrip.
  destruct (lstrip_with_drop (map Str.rev Str.whitespace) (String.length s) (Str.rev s))
    as (pre & H).
  exists (Str.rev pre). rewrite <- rev_app, <- H. now rewrite rev_involutive.
Qed.

(** [strip] leaves no white space at either end, and adds no character. *)
Lemma strip_trimmed (s : string) : trimmed (Str.strip s) = true.
Proof.
  unfold trimmed. apply forallb_forall. intros w Hin. unfold Str.strip.
  rewrite (rstrip_no_trailing _ _ Hin), andb_true_r. apply negb_true_iff.
  destruct (Str.startswith (Str.rstrip (Str.lstrip s)) w) eqn:E; [|reflexivity].
  apply startswith_iff in E as [rest E].
  destruct (rstrip_prefix (Str.lstrip s)) as (post & H).
  rewrite <- (lstrip_no_leading s w Hin). symmetry. apply startswith_iff.
  exists (rest ++ post)%string. rewrite H at 1. now rewrite E, string_app_assoc.
Qed.

Lemma count_strip (c : ascii) (s : string) : count c (Str.strip s) <= count c s.
Proof.
  unfold Str.strip. destruct (lstrip_suffix s) as (pre & H).
  destruct (rstrip_prefix (Str.lstrip s)) as (post & H').
  rewrite H at 2. rewrite count_app. rewrite H' at 2. rewrite count_app. lia.
Qed.

Lemma count_before_comment (line : string) : count "#" (before_comment line) = 0.
Proof.
  induction line as [|c line IH]; [reflexivity|].
  cbn [before_comment]. destruct (Ascii.eqb c "#") eqn:E; [reflexivity|].
  cbn [count]. now rewrite E, IH.
Qed.

(** ** load_gitignore_patterns: what a loaded pattern looks like *)

(** X2: every pattern read from a rules file is non-empty, holds no [#]
    and neither starts nor ends with white space. *)
Theorem loaded_patterns_clean (lines patterns : list string) :
  load_gitignore_patterns (Some (File lines)) = Some patterns ->
  Forall (fun pattern =>
            pattern <> EmptyString /\ count "#" pattern = 0 /\ trimmed pattern = true)
         patterns.
Proof.
  cbn [load_gitignore_patterns]. rewrite read_patterns_spec. intros [= <-].
  cbn [app load_spec]. apply Forall_forall. intros pattern Hin.
  apply filter_In in Hin as [Hin Hne]. apply in_map_iff in Hin as (line & <- & _).
  split; [|split].
  - intros E. rewrite E in Hne. discriminate.
  - pose proof (count_strip "#" (before_comment line)) as H.
    rewrite count_before_comment in H. lia.
  - apply strip_trimmed.
Qed.

Lemma loaded_patterns_clean_witness :
  Forall (fun pattern =>
            pattern <> EmptyString /\ count "#" pattern = 0 /\ trimmed pattern = true)
         ["drafts/"; "*.tmp"].
Proof.
  apply (loaded_patterns_clean ["  drafts/  # private"; "#"; " *.tmp"]).
  vm_compute. reflexivity.
Defined.

(** ** should_ignore: the wildcard and the directory patterns *)

Lemma split_no_sep (c : ascii) (s : string) : count c s = 0 -> Str.split c s = [s].
Proof.
  induction s as [|d s IH]; [reflexivity|].
  cbn [count Str.split]. destruct (Ascii.eqb d c); [discriminate|].
  intros H. now rewrite IH.
Qed.

Lemma split_app_sep (c : ascii) (pre suf : string) :
  count c pre = 0 -> Str.split c (pre ++ String c suf) = pre :: Str.split c suf.
Proof.
  induction pre as [|d pre IH]; cbn [append count Str.split].
  - now rewrite Ascii.eqb_refl.
  - destruct (Ascii.eqb d c); [discriminate|]. intros H. now rewrite IH.
Qed.

Lemma contains_iff (sub s : string) :
  Str.contains sub s = true <-> exists a b, s = (a ++ sub ++ b)%string.
Proof.
  induction s as [|c s IH]; cbn [Str.contains].
  - rewrite orb_false_r, startswith_iff. split.
    + intros [rest H]. now exists EmptyString, rest.
    + intros ([|x a] & b & H); [now exists b|discriminate].
  - rewrite orb_true_iff, startswith_iff, IH. split.
    + intros [[rest H]|(a & b & ->)].
      * now exists EmptyString, rest.
      * now exists (String c a), b.
    + intros ([|x a] & b & H).
      * left. now exists b.
      * right. cbn in H. injection H as -> ->. now exists a, b.
Qed.

Lemma count_contains (c : ascii) (sub s : string) :
  Str.contains sub s = true -> count c sub <= count c s.
Proof.
  intros (a & b & ->)%contains_iff. rewrite !count_app. lia.
Qed.

Lemma drop_last_app (name : string) (c : ascii) :
  Str.drop_last (name ++ String c EmptyString) = name.
Proof.
  induction name as [|d name IH]; [reflexivity|].
  cbn [append Str.drop_last]. rewrite IH.
  now destruct name.
Qed.

(** X3: a pattern with exactly one wildcard character matches a path when
    the path starts with what precedes the wildcard and ends with what
    follows it, both tests being made on the whole path string. So a
    pattern whose prefix part is non-empty and not absolute matches no
    absolute path. The pattern is taken not to be in the directory case
    (it does not end with the separator, or the path is no directory). *)
Theorem one_wildcard (path_is_dir : bool) (p pre suf : string) :
  count "*" pre = 0 -> count "*" suf = 0 ->
  Str.endswith (pre ++ String "*" suf) "/" && path_is_dir = false ->
  should_ignore path_is_dir p [(pre ++ String "*" suf)%string]
  = Str.startswith p pre && Str.endswith p suf
  /\ (pre <> EmptyString -> Str.startswith pre "/" = false -> Str.startswith p "/" = true ->
      should_ignore path_is_dir p [(pre ++ String "*" suf)%string] = false).
Proof.
  intros Hpre Hsuf Hdir.
  assert (should_ignore path_is_dir p [(pre ++ String "*" suf)%string]
          = Str.startswith p pre && Str.endswith p suf) as E.
  { change (should_ignore path_is_dir p [(pre ++ String "*" suf)%string])
      with (pattern_matches path_is_dir p (pre ++ String "*" suf)).
    rewrite pattern_matches_eq, Hdir, contains_char_count, count_app.
    cbn [count]. rewrite Ascii.eqb_refl, Hpre, Hsuf. cbn [Nat.add Nat.eqb negb].
    rewrite split_app_sep, split_no_sep by assumption. reflexivity. }
  split; [exact E|]. intros Hne Hrel Habs. rewrite E.
  destruct (Str.startswith p pre) eqn:Hp; [exfalso|reflexivity].
  destruct pre as [|c pre]; [congruence|]. destruct p as [|d p]; [discriminate|].
  cbn [Str.startswith] in *. rewrite andb_true_r in *.
  apply andb_true_iff in Hp as [Hcd _]. apply Ascii.eqb_eq in Hcd. subst. congruence.
Qed.

Lemma one_wildcard_witness :
  (should_ignore false "/wiki/notes.tmp" ["*.tmp"]
   = Str.startswith "/wiki/notes.tmp" EmptyString && Str.endswith "/wiki/notes.tmp" ".tmp")
  /\ should_ignore false "/wiki/draft-plan.md" ["draft*.md"] = false.
Proof.
  split.
  - apply (one_wildcard false "/wiki/notes.tmp" EmptyString ".tmp"); reflexivity.
  - apply (one_wildcard false "/wiki/draft-plan.md" "draft" ".md");
      reflexivity || discriminate.
Defined.

(** X4: a pattern made of a name without separator followed by the
    separator ignores exactly the directories whose absolute path ends with
    that name, whatever precedes it in the last component; the second test
    of the directory case, the path followed by the separator occurring in
    the pattern, cannot hold for an absolute path. *)
Theorem directory_pattern (p name : string) :
  count "/" name = 0 -> Str.startswith p "/" = true ->
  should_ignore true p [(name ++ "/")%string] = Str.endswith p name.
Proof.
  intros Hname Habs.
  change (should_ignore true p [(name ++ "/")%string])
    with (pattern_matches true p (name ++ "/")).
  rewrite pattern_matches_eq.
  assert (Str.endswith (name ++ "/") "/" = true) as ->
      by (apply endswith_iff; now exists name).
  cbn [andb]. rewrite drop_last_app.
  destruct (Str.contains (p ++ "/") (name ++ "/")) eqn:E; [exfalso|apply orb_false_r].
  apply (count_contains "/") in E. rewrite !count_app, Hname in E.
  apply startswith_iff in Habs as [rest ->]. cbn in E. lia.
Qed.

Lemma directory_pattern_witness :
  should_ignore true "/wiki/old-drafts" ["drafts/"] = Str.endswith "/wiki/old-drafts" "drafts".
Proof.
  apply (directory_pattern "/wiki/old-drafts" "drafts"); reflexivity.
Defined.

(** ** Patterns are matched against the whole absolute path *)

Lemma contains_app_l (sub a x : string) :
  Str.contains sub a = true -> Str.contains sub (a ++ x) = true.
Proof.
  rewrite !contains_iff. intros (u & v & ->). exists u, (v ++ x)%string.
  now rewrite !string_app_assoc.
Qed.

Lemma join_extends (a b : string) :
  Str.startswith b "/" = false -> exists x, OsPath.join a b = (a ++ x)%string.
Proof.
  intros H. unfold OsPath.join. rewrite H.
  destruct (Str.is_empty a || Str.endswith a "/"); eauto.
Qed.

Lemma filter_none {A : Type} (f : A -> bool) (l : list A) :
  (forall x, In x l -> f x = false) -> filter f l = [].
Proof.
  induction l as [|x l IH]; intros H; [reflexivity|].
  cbn [filter]. rewrite (H x) by now left. apply IH. intros y Hy. apply H. now right.
Qed.

Lemma literal_in_root_ignores (path_is_dir : bool) (wiki_dir item pattern : string)
    (patterns : list string) :
  In pattern patterns -> count "*" pattern = 0 -> Str.endswith pattern "/" = false ->
  Str.contains pattern wiki_dir = true -> Str.startswith item "/" = false ->
  should_ignore path_is_dir (OsPath.join wiki_dir item) patterns = true.
Proof.
  intros Hin Hstar Hsep Hroot Hitem. rewrite should_ignore_existsb.
  apply existsb_exists. exists pattern. split; [exact Hin|].
  rewrite pattern_matches_eq, Hsep, contains_char_count, Hstar. cbn [andb Nat.eqb negb].
  destruct (join_extends wiki_dir item Hitem) as [x ->]. now apply contains_app_l.
Qed.

(** X5: a pattern without wildcard and without final separator that occurs
    in the absolute path of the wiki itself matches every entry of the
    wiki: the sidebar is then the home link and the blank line, whatever
    the wiki holds. *)
Theorem pattern_in_root_path_hides_all (wiki_dir pattern : string)
    (entries : list (string * node)) (patterns : list string) :
  load_gitignore_patterns (lookup ".gitignore" entries) = Some patterns ->
  In pattern patterns -> count "*" pattern = 0 -> Str.endswith pattern "/" = false ->
  Str.contains pattern wiki_dir = true ->
  Forall (fun name => Str.startswith name "/" = false) (listdir entries) ->
  sidebar_content wiki_dir (Dir entries) = Some ["### [[Home]]"; EmptyString].
Proof.
  intros Hload Hin Hstar Hsep Hroot Hnames. cbn [sidebar_content]. rewrite Hload.
  rewrite Forall_forall in Hnames.
  assert (forall d item, In item (sorted (listdir entries)) ->
                         should_ignore d (OsPath.join wiki_dir item) patterns = true) as Hign.
  { intros d item Hitem. apply (proj1 (sorted_In _ _)) in Hitem.
    apply (literal_in_root_ignores d wiki_dir item pattern patterns); auto. }
  assert (directories entries wiki_dir patterns = []) as ->.
  { apply filter_none. intros item Hitem. rewrite (Hign _ _ Hitem).
    now rewrite !andb_false_r. }
  assert (root_md_files entries wiki_dir patterns = []) as ->.
  { apply filter_none. intros item Hitem. rewrite (Hign _ _ Hitem).
    now rewrite !andb_false_r. }
  reflexivity.
Qed.

Lemma pattern_in_root_path_hides_all_witness :
  sidebar_content "/home/me/wiki"
    (Dir [(".gitignore", File ["wiki"]); ("a.md", File []);
          ("Guides", Dir [("intro.md", File [])])])
  = Some ["### [[Home]]"; EmptyString].
Proof.
  apply (pattern_in_root_path_hides_all "/home/me/wiki" "wiki" _ ["wiki"]).
  - reflexivity.
  - now left.
  - reflexivity.
  - reflexivity.
  - reflexivity.
  - repeat constructor.
Defined.

(** ** The look-ahead and the documents of a subtree *)

Lemma rendering_implies_look_ahead_witness :
  has_md_files "/wiki/Guides" (Dir [("deep", Dir [("x.md", File [])])]) ["*.tmp"] = true /\
  has_md_files_top "/wiki/Guides" (Dir [("deep", Dir [("x.md", File [])])]) = true.
Proof.
  apply (rendering_implies_look_ahead _ "/wiki/Guides" 1 ["*.tmp"]).
  vm_compute. discriminate.
Defined.

Lemma negb_forallb {A : Type} (f : A -> bool) (l : list A) :
  negb (forallb f l) = existsb (fun x => negb (f x)) l.
Proof.
  induction l as [|x l IH]; [reflexivity|].
  cbn [forallb existsb]. now rewrite negb_andb, IH.
Qed.

Lemma has_md_files_top_md_free (t : node) :
  forall path, has_md_files_top path t = negb (md_free t).
Proof.
  induction t as [lines|entries IH] using node_induction; intros path; [reflexivity|].
  rewrite Forall_forall in IH. apply eq_true_iff_eq.
  rewrite has_md_files_top_walk, walk_any_dir. cbn [md_free].
  rewrite negb_forallb, existsb_exists. split.
  - intros [(file & child & Hin & Hk & Hp)|(name & child & Hin & Hw)].
    + exists (file, child). split; [exact Hin|]. cbn [fst snd].
      destruct child; [|discriminate]. now rewrite Hp.
    + exists (name, child). split; [exact Hin|]. cbn [fst snd].
      rewrite <- has_md_files_top_walk, (IH _ Hin) in Hw. cbn [snd] in Hw.
      destruct child; [discriminate|exact Hw].
  - intros ([name child] & Hin & H). cbn [fst snd] in H. destruct child as [lines|sub].
    + left. exists name, (File lines). rewrite negb_involutive in H. auto.
    + right. exists name, (Dir sub). split; [exact Hin|].
      rewrite <- has_md_files_top_walk. exact (eq_trans (IH _ Hin _) H).
Qed.

Lemma look_ahead_md_free_false (t : node) (path : string) (patterns : list string) :
  has_md_files path t patterns = true -> md_free t = false.
Proof.
  intros H. apply has_md_files_top_of_has_md_files in H.
  rewrite has_md_files_top_md_free in H. now apply negb_true_iff.
Qed.

(** X7: the look-ahead of [generate_sidebar] is true exactly when some file
    name under the directory, at any depth and hidden or not, ends with
    [.md]; the look-ahead of [process_directory] is true only then. *)
Theorem look_ahead_md_free (t : node) (path : string) (patterns : list string) :
  has_md_files_top path t = negb (md_free t) /\
  (has_md_files path t patterns = true -> md_free t = false).
Proof.
  split; [apply has_md_files_top_md_free|apply look_ahead_md_free_false].
Qed.

Lemma look_ahead_md_free_witness :
  md_free (Dir [(".hidden", Dir [("_x.md", File [])])]) = false.
Proof.
  apply (look_ahead_md_free _ "/wiki/Guides" []). reflexivity.
Defined.

(** ** The levels of the lines *)

Lemma process_directory_levels (t : node) :
  forall path level patterns,
    Forall (level_at_least level) (process_directory_origins t path level patterns).
Proof.
  induction t as [lines|entries IH] using node_induction; intros path level patterns;
    [constructor|].
  cbn [process_directory_origins]. apply Forall_app. split.
  - apply Forall_map, Forall_forall. intros file _. apply le_n.
  - apply Forall_flat_map, Forall_forall. intros subdir _. rewrite with_child_lookup.
    destruct (lookup subdir entries) as [child|] eqn:E; [|constructor].
    destruct (has_md_files _ child patterns); [|constructor].
    constructor; [apply le_n|]. child_hyp IH E.
    eapply Forall_impl; [|apply IH]. intros [] H; cbn in *; try lia; contradiction.
Qed.

(** X8: a directory under which no file name ends with [.md] gets no
    header: no section header when it is an entry of the root, and no
    subsection header at its level when it is an entry of a directory that
    [process_directory] renders. *)
Theorem no_markdown_no_header (entries : list (string * node)) (name : string)
    (child : node) :
  lookup name entries = Some child -> md_free child = true ->
  (forall wiki_dir origins,
      sidebar_origins wiki_dir (Dir entries) = Some origins ->
      ~ In (SectionHeader name) origins) /\
  (forall path level patterns,
      ~ In (SubsectionHeader level name)
           (process_directory_origins (Dir entries) path level patterns)).
Proof.
  intros Hchild Hfree. split.
  - intros wiki_dir origins H Hin. cbn [sidebar_origins] in H.
    destruct (load_gitignore_patterns (lookup ".gitignore" entries)) as [patterns|];
      [|discriminate].
    injection H as <-. cbn [app] in Hin.
    destruct Hin as [Hin|[Hin|Hin]]; try discriminate.
    apply in_app_or in Hin as [Hin|Hin].
    + apply in_flat_map in Hin as (directory & _ & Hin). unfold section_origins in Hin.
      destruct (should_ignore _ _ patterns); [contradiction|].
      rewrite with_child_lookup in Hin.
      destruct (lookup directory entries) as [c|] eqn:E; [|contradiction].
      destruct (has_md_files_top _ c) eqn:Hmd; [|contradiction].
      destruct Hin as [[= ->]|Hin].
      * rewrite Hchild in E. injection E as <-.
        rewrite has_md_files_top_md_free, Hfree in Hmd. discriminate.
      * apply in_app_or in Hin as [Hin|[Hin|[]]]; [|discriminate].
        pose proof (process_directory_levels c (OsPath.join wiki_dir directory) 1 patterns)
          as Hl.
        rewrite Forall_forall in Hl. exact (Hl _ Hin).
    + unfold unsorted_origins in Hin.
      destruct (root_md_files entries wiki_dir patterns); [contradiction|].
      destruct Hin as [Hin|Hin]; [discriminate|].
      apply in_map_iff in Hin as (file & Hf & _). discriminate.
  - intros path level patterns Hin. cbn [process_directory_origins] in Hin.
    apply in_app_or in Hin as [Hin|Hin].
    + apply in_map_iff in Hin as (file & Hf & _). discriminate.
    + apply in_flat_map in Hin as (subdir & _ & Hin). rewrite with_child_lookup in Hin.
      destruct (lookup subdir entries) as [c|] eqn:E; [|contradiction].
      destruct (has_md_files _ c patterns) eqn:Hmd; [|contradiction].
      destruct Hin as [[= ->]|Hin].
      * rewrite Hchild in E. injection E as <-.
        apply (look_ahead_md_free_false child) in Hmd. congruence.
      * pose proof (process_directory_levels c (OsPath.join path subdir) (S level) patterns)
          as Hl.
        rewrite Forall_forall in Hl. specialize (Hl _ Hin). cbn in Hl. lia.
Qed.

Lemma no_markdown_no_header_witness :
  (forall wiki_dir origins,
      sidebar_origins wiki_dir
        (Dir [("attic", Dir [("notes.txt", File [])]); ("x.md", File [])]) = Some origins ->
      ~ In (SectionHeader "attic") origins) /\
  (forall path level patterns,
      ~ In (SubsectionHeader level "attic")
           (process_directory_origins
              (Dir [("attic", Dir [("notes.txt", File [])]); ("x.md", File [])])
              path level patterns)).
Proof.
  apply (no_markdown_no_header _ "attic" (Dir [("notes.txt", File [])])); reflexivity.
Defined.

(** ** The indentation encodes the tree *)

Lemma nested_weaken (allowed allowed' : nat) (origins : list origin) :
  allowed <= allowed' -> nested allowed origins = true -> nested allowed' origins = true.
Proof.
  intros Hle. destruct origins as [|[] rest]; cbn [nested]; trivial;
    rewrite !andb_true_iff, !Nat.leb_le; intros [H ?]; split; trivial; lia.
Qed.

Lemma nested_leaves (level allowed : nat) (files : list string) (rest : list origin) :
  level <= allowed -> nested level rest = true ->
  nested allowed (map (LeafLink level) files ++ rest) = true.
Proof.
  intros Hle Hrest. revert allowed Hle.
  induction files as [|file files IH]; intros allowed Hle; cbn [map app nested].
  - now apply (nested_weaken level).
  - rewrite (proj2 (Nat.leb_le _ _) Hle). cbn [andb]. now apply IH.
Qed.

Lemma nested_process_directory (t : node) :
  forall path level patterns allowed rest,
    level <= allowed -> nested level rest = true ->
    nested allowed (process_directory_origins t path level patterns ++ rest) = true.
Proof.
  induction t as [lines|entries IH] using node_induction;
    intros path level patterns allowed rest Hle Hrest.
  - now apply (nested_weaken level).
  - cbn [process_directory_origins]. rewrite <- app_assoc.
    apply nested_leaves; [exact Hle|].
    induction (subdirs entries path patterns) as [|subdir more IHmore];
      [exact Hrest|].
    cbn [flat_map]. rewrite <- app_assoc. rewrite with_child_lookup.
    destruct (lookup subdir entries) as [child|] eqn:E; [|exact IHmore].
    destruct (has_md_files _ child patterns); [|exact IHmore].
    cbn [app nested]. rewrite Nat.leb_refl. cbn [andb].
    pose proof (proj1 (Forall_forall _ _) IH _ (lookup_In _ _ _ E)) as IHc.
    cbn [snd] in IHc. apply IHc; [apply le_n|].
    now apply (nested_weaken level); [lia|].
Qed.

(** X9: in the sidebar a line is indented deeper than the line before it
    only directly after a header, and then by one level; section headers,
    the Unsorted header and its links are at level 0. *)
Theorem sidebar_nested (wiki_dir : string) (root : node) (origins : list origin) :
  sidebar_origins wiki_dir root = Some origins -> nested 0 origins = true.
Proof.
  destruct root as [lines|entries]; [discriminate|]. cbn [sidebar_origins].
  destruct (load_gitignore_patterns (lookup ".gitignore" entries)) as [patterns|];
    [|discriminate].
  intros [= <-]. cbn [app nested].
  assert (nested 0 (unsorted_origins (root_md_files entries wiki_dir patterns)) = true) as Hu.
  { unfold unsorted_origins.
    destruct (root_md_files entries wiki_dir patterns) as [|f fs]; [reflexivity|].
    cbn [nested]. rewrite <- (app_nil_r (map _ _)). now apply nested_leaves. }
  induction (directories entries wiki_dir patterns) as [|directory more IH]; [exact Hu|].
  cbn [flat_map]. rewrite <- app_assoc. unfold section_origins at 1.
  destruct (should_ignore _ _ patterns); [exact IH|].
  rewrite with_child_lookup.
  destruct (lookup directory entries) as [child|]; [|exact IH].
  destruct (has_md_files_top _ child); [|exact IH].
  cbn [app nested]. rewrite <- app_assoc.
  apply nested_process_directory; [apply le_n|]. cbn [app nested]. exact IH.
Qed.

Lemma sidebar_nested_witness :
  nested 0 [HomeLink; Blank; SectionHeader "Guides"; LeafLink 1 "intro.md";
            SubsectionHeader 1 "deep"; LeafLink 2 "x.md";
            SubsectionHeader 1 "zz"; LeafLink 2 "y.md"; Blank;
            UnsortedHeader; LeafLink 0 "top.md"] = true.
Proof.
  apply (sidebar_nested "/wiki" nested_wiki). vm_compute. reflexivity.
Defined.

(** ** The link of a listed document *)

(** X10: every file that [process_directory] lists is named [base.md] for
    some [base], and its line links the label made from [base] to the
    identifier made from [base]: the suffix [.md] is what is removed, also
    when [base] itself holds dots. Names hold no separator. *)
Theorem listed_file_link (entries : list (string * node)) (path : string)
    (patterns : list string) (level : nat) (file : string) :
  In file (md_files entries path patterns) -> count "/" file = 0 ->
  exists base,
    file = (base ++ ".md")%string /\
    leaf_line level file
    = (Str.repeat "  " level ++ "- [" ++ Str.replace "_" " " (Str.replace "-" " " base)
       ++ "](" ++ UrlLib.quote (Str.replace " " "-" base) ++ ")")%string.
Proof.
  intros Hin Hsep. unfold md_files in Hin. apply filter_In in Hin as [_ Hin].
  rewrite !andb_true_iff, !negb_true_iff in Hin.
  destruct Hin as [[[[_ Hmd] _] Hdot] _].
  apply endswith_iff in Hmd as [base ->]. exists base. split; [reflexivity|].
  unfold leaf_line, generate_wiki_link, link_name, link_url, clean_filename.
  change ".md" with (String "." "md") in *.
  rewrite splitext_last_dot; trivial. eapply visible_has_non_dot; eauto.
Qed.

Lemma listed_file_link_witness :
  exists base,
    "release-1.2 notes.md" = (base ++ ".md")%string /\
    leaf_line 1 "release-1.2 notes.md"
    = (Str.repeat "  " 1 ++ "- [" ++ Str.replace "_" " " (Str.replace "-" " " base)
       ++ "](" ++ UrlLib.quote (Str.replace " " "-" base) ++ ")")%string.
Proof.
  apply (listed_file_link [("release-1.2 notes.md", File [])] "/wiki/Guides" []).
  - vm_compute. now left.
  - reflexivity.
Defined.

Example dotted_file_link :
  leaf_line 1 "release-1.2 notes.md" = "  - [release 1.2 notes](release-1.2-notes)".
Proof. vm_compute. reflexivity. Qed.

(** ** The write, and running the script again *)

Lemma lookup_replace_entry (name : string) (new : node) (entries : list (string * node))
    (item : string) :
  lookup item (replace_entry name new entries)
  = if String.eqb item name
    then match lookup name entries with Some _ => Some new | None => None end
    else lookup item entries.
Proof.
  induction entries as [|[n c] rest IH]; cbn [replace_entry lookup].
  - now destruct (String.eqb item name).
  - destruct (String.eqb_spec n name) as [->|Hn]; cbn [lookup].
    + destruct (String.eqb_spec name item) as [->|Hi].
      * now rewrite String.eqb_refl.
      * destruct (String.eqb_spec item name); [congruence|reflexivity].
    + destruct (String.eqb_spec n item) as [->|Hi].
      * destruct (String.eqb_spec item name); [congruence|reflexivity].
      * exact IH.
Qed.

Lemma listdir_replace_entry (name : string) (new : node) (entries : list (string * node)) :
  listdir (replace_entry name new entries) = listdir entries.
Proof.
  induction entries as [|[n c] rest IH]; [reflexivity|].
  unfold listdir in *. cbn [replace_entry].
  destruct (String.eqb n name); cbn [map fst]; [reflexivity|now rewrite IH].
Qed.

Lemma replace_entry_same (name : string) (new : node) (entries : list (string * node)) :
  lookup name entries = Some new -> replace_entry name new entries = entries.
Proof.
  induction entries as [|[n c] rest IH]; [reflexivity|].
  cbn [lookup replace_entry]. destruct (String.eqb n name).
  - now intros [= ->].
  - intros H. now rewrite IH.
Qed.

Lemma Permutation_filter {A : Type} (f : A -> bool) (l l' : list A) :
  Permutation l l' -> Permutation (filter f l) (filter f l').
Proof.
  induction 1 as [|x l l' _ IH|x y l|l l' l'' _ IH1 _ IH2]; cbn [filter].
  - constructor.
  - destruct (f x); [now constructor|exact IH].
  - destruct (f x), (f y); try reflexivity. apply perm_swap.
  - now transitivity (filter f l').
Qed.

(** A name that the filter rejects may be added to the listing. *)
Lemma filter_sorted_cons (f : string -> bool) (name : string) (names : list string) :
  f name = false -> filter f (sorted (name :: names)) = filter f (sorted names).
Proof.
  intros H. apply StronglySorted_unique;
    try (apply StronglySorted_filter, sorted_StronglySorted).
  transitivity (filter f (name :: names)).
  - apply Permutation_filter. symmetry. apply sorted_Permutation.
  - cbn [filter]. rewrite H. apply Permutation_filter, sorted_Permutation.
Qed.

Lemma flat_map_ext_in {A B : Type} (f g : A -> list B) (l : list A) :
  (forall x, In x l -> f x = g x) -> flat_map f l = flat_map g l.
Proof.
  induction l as [|x l IH]; intros H; [reflexivity|].
  cbn [flat_map]. rewrite (H x) by now left. f_equal. apply IH.
  intros y Hy. apply H. now right.
Qed.

Lemma write_file_written (entries entries' : list (string * node)) (output : string)
    (lines : list string) :
  write_file entries output lines = Some entries' ->
  written output entries entries' /\ lookup output entries' = Some (File lines).
Proof.
  unfold write_file. destruct (lookup output entries) as [[old|sub]|] eqn:E;
    try discriminate; intros [= <-].
  - split; [split|].
    + unfold isdir. now rewrite E.
    + intros item. unfold isdir. rewrite lookup_replace_entry, E.
      destruct (String.eqb_spec item output) as [->|_]; [now rewrite E|reflexivity].
    + intros item Hne. rewrite lookup_replace_entry.
      destruct (String.eqb_spec item output); [contradiction|reflexivity].
    + intros f _. now rewrite listdir_replace_entry.
    + now rewrite lookup_replace_entry, String.eqb_refl, E.
  - split; [split|].
    + unfold isdir. now rewrite E.
    + intros item. unfold isdir. cbn [lookup].
      destruct (String.eqb_spec output item) as [<-|_]; [now rewrite E|reflexivity].
    + intros item Hne. cbn [lookup].
      destruct (String.eqb_spec output item); [congruence|reflexivity].
    + intros f Hf. now apply filter_sorted_cons.
    + cbn [lookup]. now rewrite String.eqb_refl.
Qed.

(** The sidebar does not list a file whose name starts with the protected
    marker, so writing one changes nothing in it. *)
Lemma sidebar_after_write (wiki_dir output : string) (entries entries' : list (string * node)) :
  written output entries entries' -> Str.startswith output "_" = true ->
  sidebar_content wiki_dir (Dir entries') = sidebar_content wiki_dir (Dir entries).
Proof.
  intros W Hmark. cbn [sidebar_content].
  assert (output <> ".gitignore") as Hrules by (intros ->; discriminate).
  rewrite (written_lookup _ _ _ W ".gitignore") by congruence.
  destruct (load_gitignore_patterns (lookup ".gitignore" entries)) as [patterns|];
    [|reflexivity].
  assert (directories entries' wiki_dir patterns = directories entries wiki_dir patterns)
    as Hd.
  { unfold directories.
    rewrite (filter_ext _ (fun item =>
               isdir entries item && negb (Str.startswith item ".")
               && negb (should_ignore (isdir entries item) (OsPath.join wiki_dir item)
                                      patterns)))
      by (intros item; now rewrite (written_isdir _ _ _ W)).
    apply (written_listing _ _ _ W). now rewrite (written_output_file _ _ _ W). }
  assert (root_md_files entries' wiki_dir patterns = root_md_files entries wiki_dir patterns)
    as Hf.
  { unfold root_md_files.
    rewrite (filter_ext _ (fun item =>
               isfile entries item && Str.endswith item ".md"
               && negb (Str.startswith item "_") && negb (Str.startswith item ".")
               && negb (String.eqb item "Home.md")
               && negb (should_ignore (isdir entries item) (OsPath.join wiki_dir item)
                                      patterns))).
    - apply (written_listing _ _ _ W). rewrite Hmark. cbn [negb].
      now rewrite andb_false_r.
    - intros item. rewrite (written_isdir _ _ _ W).
      destruct (String.eqb_spec item output) as [->|Hne].
      + rewrite Hmark. cbn [negb]. now rewrite !andb_false_r.
      + unfold isfile. now rewrite (written_lookup _ _ _ W item Hne). }
  rewrite Hd, Hf. do 3 f_equal. apply flat_map_ext_in. intros directory Hin.
  unfold directories in Hin. apply filter_In in Hin as [_ Hin].
  rewrite !andb_true_iff in Hin. destruct Hin as [[Hdir _] _].
  assert (directory <> output) as Hne
      by (intros ->; rewrite (written_output_file _ _ _ W) in Hdir; discriminate).
  unfold section. rewrite (written_isdir _ _ _ W), !with_child_lookup.
  now rewrite (written_lookup _ _ _ W directory Hne).
Qed.

(** X11: running the script a second time changes nothing when the output
    name starts with the protected marker, as the default does: the second
    run prints the same message and leaves the directory as the first run
    left it. The output is a name without separator. *)
Theorem second_run_changes_nothing (wiki_dir abs_dir output printed : string)
    (root root' : node) :
  count "/" output = 0 -> Str.startswith output "_" = true ->
  main wiki_dir abs_dir output (Some root) = Finished printed root' ->
  main wiki_dir abs_dir output (Some root') = Finished printed root'.
Proof.
  intros _ Hmark. destruct root as [lines|entries]; [discriminate|].
  cbn [main]. unfold generate_sidebar.
  destruct (sidebar_content abs_dir (Dir entries)) as [content|] eqn:Hc; [|discriminate].
  destruct (write_file entries output _) as [entries'|] eqn:Hw; [|discriminate].
  intros [= <- <-]. cbn [main]. unfold generate_sidebar.
  destruct (write_file_written _ _ _ _ Hw) as [W Hout].
  rewrite (sidebar_after_write abs_dir output entries entries' W Hmark), Hc.
  unfold write_file. rewrite Hout. now rewrite (replace_entry_same _ _ _ Hout).
Qed.

Lemma second_run_changes_nothing_witness :
  main "." "/wiki" default_output
       (Some (Dir [("_Sidebar.md",
                    File (text_lines
                            (Str.join (String (ascii_of_nat 10) EmptyString)
                               ["### [[Home]]"; EmptyString; "### Unsorted"; "- [a](a)"])));
                   ("a.md", File [])]))
  = Finished "Sidebar generated at: /wiki/_Sidebar.md"
      (Dir [("_Sidebar.md",
             File (text_lines
                     (Str.join (String (ascii_of_nat 10) EmptyString)
                        ["### [[Home]]"; EmptyString; "### Unsorted"; "- [a](a)"])));
            ("a.md", File [])]).
Proof.
  apply (second_run_changes_nothing "." "/wiki" default_output _ (Dir [("a.md", File [])]));
    vm_compute; reflexivity.
Defined.



(** ** The layout of the root level *)

Lemma sorted_of_sorted (names : list string) :
  StronglySorted lex_le names -> sorted names = names.
Proof.
  intros H. apply StronglySorted_unique; [apply sorted_StronglySorted|exact H|].
  symmetry. apply sorted_Permutation.
Qed.

Lemma kept_directories_names (entries : list (string * node)) (wiki_dir : string)
    (patterns : list string) :
  map fst (kept_directories entries wiki_dir patterns)
  = filter (fun directory =>
              negb (should_ignore (isdir entries directory) (OsPath.join wiki_dir directory)
                                  patterns)
              && match lookup directory entries with
                 | Some child => has_md_files_top (OsPath.join wiki_dir directory) child
                 | None => false
                 end)
           (directories entries wiki_dir patterns).
Proof.
  unfold kept_directories.
  induction (directories entries wiki_dir patterns) as [|directory rest IH]; [reflexivity|].
  cbn [flat_map filter]. rewrite map_app, IH.
  destruct (should_ignore _ _ patterns); [reflexivity|].
  destruct (lookup directory entries) as [child|]; [|reflexivity].
  destruct (has_md_files_top _ child); reflexivity.
Qed.

(** X13: below the home link and the blank line the sidebar holds one
    block per kept root directory, in lexicographic order of the names: the
    section header, the rendering of the directory at level 1, a blank
    line. The documents of the root come last, under the Unsorted header,
    in lexicographic order; the header is absent when there is none. *)
Theorem root_layout (wiki_dir : string) (entries : list (string * node))
    (lines : list string) :
  sidebar_content wiki_dir (Dir entries) = Some lines ->
  exists (patterns : list string) (dirs : list (string * node)) (files : list string),
    lines
    = ["### [[Home]]"; EmptyString]
      ++ flat_map (fun '(directory, child) =>
                     header_line directory
                     :: process_directory child (OsPath.join wiki_dir directory) 1 patterns
                        ++ [EmptyString])
                  dirs
      ++ match files with
         | [] => []
         | _ => "### Unsorted" :: map (leaf_line 0) files
         end
    /\ StronglySorted lex_le (map fst dirs)
    /\ StronglySorted lex_le files
    /\ Forall (fun '(directory, child) => lookup directory entries = Some child) dirs
    /\ Forall (fun file => isfile entries file = true /\ file <> "Home.md") files.
Proof.
  cbn [sidebar_content].
  destruct (load_gitignore_patterns (lookup ".gitignore" entries)) as [patterns|];
    [|discriminate].
  intros [= <-].
  exists patterns, (kept_directories entries wiki_dir patterns),
         (root_md_files entries wiki_dir patterns).
  assert (StronglySorted lex_le (root_md_files entries wiki_dir patterns)) as Hs
      by apply StronglySorted_filter, sorted_StronglySorted.
  split; [|split; [|split; [exact Hs|split]]].
  - assert (flat_map (section entries wiki_dir patterns)
                     (directories entries wiki_dir patterns)
            = flat_map (fun '(directory, child) =>
                          header_line directory
                          :: process_directory child (OsPath.join wiki_dir directory) 1
                                               patterns
                             ++ [EmptyString])
                       (kept_directories entries wiki_dir patterns)) as ->.
    { unfold kept_directories.
      induction (directories entries wiki_dir patterns) as [|directory rest IH];
        [reflexivity|].
      cbn [flat_map]. rewrite flat_map_app, <- IH. f_equal. unfold section.
      destruct (should_ignore _ _ patterns); [reflexivity|].
      rewrite with_child_lookup.
      destruct (lookup directory entries) as [child|]; [|reflexivity].
      destruct (has_md_files_top _ child); [|reflexivity].
      cbn [flat_map]. now rewrite app_nil_r. }
    unfold unsorted_section. rewrite (sorted_of_sorted _ Hs).
    destruct (root_md_files entries wiki_dir patterns); reflexivity.
  - rewrite kept_directories_names. unfold directories.
    apply StronglySorted_filter, StronglySorted_filter, sorted_StronglySorted.
  - apply Forall_forall. intros [directory child] Hin. unfold kept_directories in Hin.
    apply in_flat_map in Hin as (name & _ & Hin).
    destruct (should_ignore _ _ patterns); [contradiction|].
    destruct (lookup name entries) as [c|] eqn:E; [|contradiction].
    destruct (has_md_files_top _ c); [|contradiction].
    destruct Hin as [[= <- <-]|[]]. exact E.
  - apply Forall_forall. intros file Hin. unfold root_md_files in Hin.
    apply filter_In in Hin as [_ Hin]. rewrite !andb_true_iff, !negb_true_iff in Hin.
    destruct Hin as [[[[[Hfile _] _] _] Hhome] _]. split; [exact Hfile|].
    now apply String.eqb_neq.
Qed.

Lemma root_layout_witness :
  exists (patterns : list string) (dirs : list (string * node)) (files : list string),
    ["### [[Home]]"; EmptyString; "### Guides"; "  - [intro](intro)"; EmptyString;
     "### Unsorted"; "- [loose](loose)"]
    = ["### [[Home]]"; EmptyString]
      ++ flat_map (fun '(directory, child) =>
                     header_line directory
                     :: process_directory child (OsPath.join "/wiki" directory) 1 patterns
                        ++ [EmptyString])
                  dirs
      ++ match files with
         | [] => []
         | _ => "### Unsorted" :: map (leaf_line 0) files
         end
    /\ StronglySorted lex_le (map fst dirs)
    /\ StronglySorted lex_le files
    /\ Forall (fun '(directory, child) =>
                 lookup directory (example_entries [] [] []) = Some child) dirs
    /\ Forall (fun file => isfile (example_entries [] [] []) file = true
                           /\ file <> "Home.md") files.
Proof.
  apply (root_layout "/wiki" (example_entries [] [] [])). vm_compute. reflexivity.
Defined.

(** ** What lies under a skipped directory *)

Lemma lookup_remove_entry (name item : string) (entries : list (string * node)) :
  lookup item (remove_entry name entries)
  = if String.eqb item name then None else lookup item entries.
Proof.
  unfold remove_entry. induction entries as [|[n c] rest IH]; cbn [filter lookup fst].
  - now destruct (String.eqb item name).
  - destruct (String.eqb_spec n name) as [->|Hn]; cbn [negb lookup].
    + rewrite IH. destruct (String.eqb_spec item name) as [->|Hi].
      * reflexivity.
      * destruct (String.eqb_spec name item); [congruence|reflexivity].
    + destruct (String.eqb_spec n item) as [->|Hi]; [|exact IH].
      destruct (String.eqb_spec item name); [congruence|reflexivity].
Qed.

Lemma filter_listdir_remove_entry (f : string -> bool) (name : string)
    (entries : list (string * node)) :
  f name = false ->
  filter f (listdir (remove_entry name entries)) = filter f (listdir entries).
Proof.
  intros Hf. unfold remove_entry, listdir.
  induction entries as [|[n c] rest IH]; [reflexivity|].
  cbn [filter map fst]. destruct (String.eqb_spec n name) as [->|Hn]; cbn [negb].
  - now rewrite Hf.
  - cbn [map filter fst]. now rewrite IH.
Qed.

Lemma filter_sorted_remove_entry (f : string -> bool) (name : string)
    (entries : list (string * node)) :
  f name = false ->
  filter f (sorted (listdir (remove_entry name entries)))
  = filter f (sorted (listdir entries)).
Proof.
  intros Hf. apply StronglySorted_unique;
    try (apply StronglySorted_filter, sorted_StronglySorted).
  transitivity (filter f (listdir (remove_entry name entries))).
  - apply Permutation_filter. symmetry. apply sorted_Permutation.
  - rewrite (filter_listdir_remove_entry f name entries Hf).
    apply Permutation_filter, sorted_Permutation.
Qed.

(** X14: a subdirectory that is hidden or matched by a pattern has no part
    in what [process_directory] appends for its parent: the lines are the
    same as if the subdirectory were not there, whatever it holds. *)
Theorem skipped_directory_contributes_nothing (entries : list (string * node))
    (name path : string) (level : nat) (patterns : list string) :
  isdir entries name = true ->
  Str.startswith name "." = true
  \/ should_ignore true (OsPath.join path name) patterns = true ->
  process_directory (Dir (remove_entry name entries)) path level patterns
  = process_directory (Dir entries) path level patterns.
Proof.
  intros Hdir Hskip. cbn [process_directory].
  assert (forall item, item <> name ->
                       lookup item (remove_entry name entries) = lookup item entries) as Hl.
  { intros item Hne. rewrite lookup_remove_entry.
    destruct (String.eqb_spec item name); [contradiction|reflexivity]. }
  assert (lookup name (remove_entry name entries) = None) as Hgone
      by (now rewrite lookup_remove_entry, String.eqb_refl).
  assert (md_files (remove_entry name entries) path patterns
          = md_files entries path patterns) as ->.
  { unfold md_files. rewrite filter_sorted_remove_entry
      by (unfold isfile; now rewrite Hgone).
    apply filter_ext. intros item. destruct (String.eqb_spec item name) as [->|Hne].
    - unfold isfile at 1 2. rewrite Hgone. unfold isdir in Hdir.
      destruct (lookup name entries) as [[|]|]; try discriminate. reflexivity.
    - unfold isfile, isdir. now rewrite (Hl item Hne). }
  assert (subdirs entries path patterns = subdirs (remove_entry name entries) path patterns
          /\ ~ In name (subdirs entries path patterns)) as [Hs Hout].
  { assert (isdir entries name && negb (Str.startswith name ".")
            && negb (should_ignore (isdir entries name) (OsPath.join path name) patterns)
            = false) as Hrej.
    { rewrite Hdir. destruct Hskip as [-> | ->]; [reflexivity|].
      now rewrite andb_false_r. }
    split.
    - unfold subdirs. symmetry. rewrite filter_sorted_remove_entry
        by (unfold isdir; now rewrite Hgone).
      apply filter_ext. intros item. destruct (String.eqb_spec item name) as [->|Hne].
      + rewrite Hrej. unfold isdir. now rewrite Hgone.
      + unfold isdir. now rewrite (Hl item Hne).
    - unfold subdirs. intros [_ Hin]%filter_In. congruence. }
  rewrite <- Hs. f_equal. apply flat_map_ext_in. intros subdir Hin.
  assert (subdir <> name) as Hne by (intros ->; contradiction).
  rewrite !with_child_lookup. now rewrite (Hl subdir Hne).
Qed.

Lemma skipped_directory_contributes_nothing_witness :
  process_directory
    (Dir (remove_entry "drafts" [("drafts", Dir [("wip.md", File [])]); ("a.md", File [])]))
    "/wiki/Guides" 1 ["drafts/"]
  = process_directory
      (Dir [("drafts", Dir [("wip.md", File [])]); ("a.md", File [])])
      "/wiki/Guides" 1 ["drafts/"].
Proof.
  apply (skipped_directory_contributes_nothing _ "drafts" "/wiki/Guides" 1 ["drafts/"]).
  - reflexivity.
  - right. reflexivity.
Defined.
